(** * OMS Daily Report Processor: the text pipeline of [script.js]

    A shallow embedding of the three pure stages of [script.js]
    ([parsePastedData], [extractJobName] / [processPriority] / [processData],
    [generateTabSeparatedOutput]), of the click handler of the process
    button and of the read-back of [copyToClipboard], with the properties
    the specification states about them and further properties of the
    code.

    The document.  [showNotification] is modelled by the list of the
    notifications shown.  [displayOutput], [escapeHtml] and [clearAll] only
    write to the page and are not modelled; of [copyToClipboard] the model
    keeps what is computed from the texts of the table cells.

    Strings.  A JavaScript string is modelled as a Rocq [string] whose
    characters are 7-bit ASCII code units.  On that alphabet
    [String.prototype.trim] and the regular-expression class [\s] remove
    exactly TAB, LF, VT, FF, CR and SPACE, [toUpperCase] / [toLowerCase] act
    on the 26 letters only, and the [i] flag of a regular expression
    identifies a letter with its other case.  Characters above 127 are
    carried through unchanged and are outside the modelled alphabet.

    Regular expressions.  Each regular expression of the source is embedded
    as the matcher it denotes: leftmost match, greedy quantifiers, and, for
    the [g] flag, successive non-overlapping matches. *)

From stdpp Require Import gmap strings list.
From Stdlib Require Import String Ascii Bool Arith Lia DecimalString.

Open Scope string_scope.
Open Scope nat_scope.

(** stdpp freezes [String.append]; the proofs below compute with it. *)
#[local] Arguments String.append !_ _ / : simpl nomatch.

(** ** Characters *)

Module Char.

Definition code (c : ascii) : nat := nat_of_ascii c.

Definition between (lo hi : nat) (c : ascii) : bool :=
  (lo <=? code c) && (code c <=? hi).

(** [\s] and the characters removed by [trim]. *)
Definition isWhiteSpace (c : ascii) : bool :=
  between 9 13 c || (code c =? 32).

(** [\d] *)
Definition isDigit (c : ascii) : bool := between 48 57 c.

Definition isUpper (c : ascii) : bool := between 65 90 c.
Definition isLower (c : ascii) : bool := between 97 122 c.

(** [[A-Z0-9_]] under the [i] flag. *)
Definition isWord (c : ascii) : bool :=
  isUpper c || isLower c || isDigit c || (code c =? 95).

(** [(_|-)] *)
Definition isSeparator (c : ascii) : bool :=
  (code c =? 95) || (code c =? 45).

Definition toUpper (c : ascii) : ascii :=
  if isLower c then ascii_of_nat (code c - 32) else c.

Definition toLower (c : ascii) : ascii :=
  if isUpper c then ascii_of_nat (code c + 32) else c.

(** Two characters match under the [i] flag when their canonical
    (upper-case) forms coincide. *)
Definition eqCI (a b : ascii) : bool :=
  Ascii.eqb (toUpper a) (toUpper b).

End Char.

(** ** String primitives of the JavaScript runtime *)

Module Str.

Fixpoint map (f : ascii -> ascii) (s : string) : string :=
  match s with
  | EmptyString => EmptyString
  | String c r => String (f c) (map f r)
  end.

Definition toUpperCase : string -> string := map Char.toUpper.
Definition toLowerCase : string -> string := map Char.toLower.

Fixpoint filter (p : ascii -> bool) (s : string) : string :=
  match s with
  | EmptyString => EmptyString
  | String c r => if p c then String c (filter p r) else filter p r
  end.

Definition isEmpty (s : string) : bool :=
  match s with EmptyString => true | _ => false end.

(** A string used as a condition: the empty string is falsy. *)
Definition truthy (s : string) : bool := negb (isEmpty s).

Fixpoint trimStart (s : string) : string :=
  match s with
  | EmptyString => EmptyString
  | String c r => if Char.isWhiteSpace c then trimStart r else s
  end.

Fixpoint trimEnd (s : string) : string :=
  match s with
  | EmptyString => EmptyString
  | String c r =>
      let r' := trimEnd r in
      if isEmpty r' && Char.isWhiteSpace c then EmptyString else String c r'
  end.

Definition trim (s : string) : string := trimEnd (trimStart s).

(** [s.split(sep)] for a one-character separator; the result always has at
    least one piece. *)
Fixpoint split (sep : ascii) (s : string) : list string :=
  match s with
  | EmptyString => [EmptyString]
  | String c r =>
      if Ascii.eqb c sep then EmptyString :: split sep r
      else match split sep r with
           | [] => [String c EmptyString]
           | piece :: pieces => String c piece :: pieces
           end
  end.

(** [pieces.join(sep)] *)
Fixpoint join (sep : string) (pieces : list string) : string :=
  match pieces with
  | [] => EmptyString
  | [piece] => piece
  | piece :: rest => piece ++ sep ++ join sep rest
  end.

(** [s.substring(0, n)] *)
Definition prefix (n : nat) (s : string) : string := substring 0 n s.

(** Does [s] start with [kw], letters compared without case? Gives the rest
    of [s] after the keyword. *)
Fixpoint stripPrefixCI (kw s : string) : option string :=
  match kw with
  | EmptyString => Some s
  | String k kw' =>
      match s with
      | EmptyString => None
      | String c r => if Char.eqCI k c then stripPrefixCI kw' r else None
      end
  end.

Definition startsWithCI (kw s : string) : bool :=
  match stripPrefixCI kw s with Some _ => true | None => false end.

(** The longest prefix of [s] made of characters satisfying [p]. *)
Fixpoint takeWhile (p : ascii -> bool) (s : string) : string :=
  match s with
  | EmptyString => EmptyString
  | String c r => if p c then String c (takeWhile p r) else EmptyString
  end.

Fixpoint dropWhile (p : ascii -> bool) (s : string) : string :=
  match s with
  | EmptyString => EmptyString
  | String c r => if p c then dropWhile p r else s
  end.

End Str.

Definition TAB : ascii := ascii_of_nat 9.
Definition LF : ascii := ascii_of_nat 10.
Definition tab : string := String TAB EmptyString.
Definition newline : string := String LF EmptyString.

(** ** Constants of the script *)

(** [INPUT_COLUMNS], as the ordered (key, canonical header) pairs that
    [Object.entries] enumerates. *)
Definition INPUT_COLUMNS : list (string * string) :=
  [ ("NUMBER", "Number");
    ("CALLER", "Caller");
    ("SHORT_DESCRIPTION", "Short description");
    ("PRIORITY", "Priority");
    ("CONFIGURATION_ITEM", "Configuration item");
    ("STATE", "State");
    ("ASSIGNMENT_GROUP", "Assignment group");
    ("ASSIGNED_TO", "Assigned to");
    ("SLA_DUE", "SLA due");
    ("OPENED", "Opened") ].

Definition OUTPUT_COLUMNS : list string :=
  [ "Number"; "State"; "Priority"; "Assignment group"; "filled by"; "Job name" ].

(** ** [extractJobName] *)

Module JobName.

(** One attempt of [/:\s*OMS_([A-Z0-9_]+)/i] at the start of [s]: a colon,
    the greedy white-space run, the literal [OMS_] and the greedy word run,
    which must not be empty.  Gives capture group 1 and the length of the
    whole match. *)
Definition matchAt (s : string) : option (string * nat) :=
  match s with
  | String ":" r =>
      let r1 := Str.dropWhile Char.isWhiteSpace r in
      match Str.stripPrefixCI "OMS_" r1 with
      | Some r2 =>
          let w := Str.takeWhile Char.isWord r2 in
          if Str.isEmpty w then None
          else Some (w, 1 + (String.length r - String.length r1) + 4 + String.length w)
      | None => None
      end
  | _ => None
  end.

(** [Array.from(s.matchAll(pattern))], reduced to the capture group
    [match[1]] of each match.  [skip] counts the characters of the previous
    match that are still to be passed over. *)
Fixpoint matchAllFrom (s : string) (skip : nat) : list string :=
  match s with
  | EmptyString => []
  | String _ r =>
      match skip with
      | S k => matchAllFrom r k
      | O =>
          match matchAt s with
          | Some (w, len) => w :: matchAllFrom r (len - 1)
          | None => matchAllFrom r 0
          end
      end
  end.

Definition matchAll (s : string) : list string := matchAllFrom s 0.

(** ['OMS_' + match[1]] *)
Definition matchedText (capture : string) : string := "OMS_" ++ capture.

Definition isUpperCase (t : string) : bool := String.eqb t (Str.toUpperCase t).

(** [!bestMatch]: [null] and the empty string are falsy. *)
Definition falsy (best : option string) : bool :=
  match best with
  | None => true
  | Some b => Str.isEmpty b
  end.

Definition len (best : option string) : nat :=
  match best with
  | None => 0
  | Some b => String.length b
  end.

(** One iteration of the first loop over [matches]. *)
Definition upperStep (best : option string) (capture : string) : option string :=
  let t := matchedText capture in
  if isUpperCase t then
    if falsy best || (len best <? String.length t) then Some t else best
  else best.

Definition bestUpper (matches : list string) : option string :=
  fold_left upperStep matches None.

(** The callback of [matches.reduce]. *)
Definition longerStep (longest : string) (capture : string) : string :=
  let t := matchedText capture in
  if String.length longest <? String.length t then t else longest.

Definition longest (first : string) (matches : list string) : string :=
  fold_left longerStep matches (matchedText first).

(** The candidate held in [bestMatch] when the truncation pass starts. *)
Definition candidate (first : string) (matches : list string) : string :=
  let best := bestUpper matches in
  if falsy best then longest first matches
  else match best with Some b => b | None => EmptyString end.

Definition daysOfWeek : list string :=
  [ "Sunday"; "Monday"; "Tuesday"; "Wednesday"; "Thursday"; "Friday"; "Saturday" ].

Definition months : list string :=
  [ "January"; "February"; "March"; "April"; "May"; "June"; "July"; "August";
    "September"; "October"; "November"; "December" ].

Definition dateKeywords : list string := daysOfWeek ++ months.

(** [s.match(re)] for a pattern [re] that is a separator [(_|-)] and then
    [follows]: the index of the leftmost separator whose remainder satisfies
    [follows]. *)
Fixpoint searchSeparator (follows : string -> bool) (s : string) : option nat :=
  match s with
  | EmptyString => None
  | String c r =>
      if Char.isSeparator c && follows r then Some 0
      else option_map S (searchSeparator follows r)
  end.

(** [s.match(/(_|-)(?:keyword)/i)] *)
Definition searchKeyword (keyword s : string) : option nat :=
  searchSeparator (Str.startsWithCI keyword) s.

(** [\d{4}] at the start of [s]. *)
Definition fourDigits (s : string) : bool :=
  match s with
  | String a (String b (String c (String d _))) =>
      Char.isDigit a && Char.isDigit b && Char.isDigit c && Char.isDigit d
  | _ => false
  end.

(** [s.match(/(_|-)(\d{4})/)] *)
Definition searchYear (s : string) : option nat :=
  searchSeparator fourDigits s.

(** The loop over [dateKeywords]; both [break]s leave it with the shortened
    [bestMatch]. *)
Fixpoint truncateLoop (keywords : list string) (bestMatch : string) : string :=
  match keywords with
  | [] => bestMatch
  | keyword :: rest =>
      match searchKeyword keyword bestMatch with
      | Some i => Str.prefix i bestMatch
      | None =>
          match searchYear bestMatch with
          | Some j => Str.prefix j bestMatch
          | None => truncateLoop rest bestMatch
          end
      end
  end.

Definition truncate (bestMatch : string) : string :=
  truncateLoop dateKeywords bestMatch.

End JobName.

Definition extractJobName (shortDescription : string) : string :=
  if Str.isEmpty shortDescription then EmptyString
  else
    let matches := JobName.matchAll shortDescription in
    match matches with
    | [] => EmptyString
    | first :: _ =>
        Str.toUpperCase (JobName.truncate (JobName.candidate first matches))
    end.

(** ** [processPriority] *)

Module Priority.

(** [/[\d\-]/] *)
Definition isDigitOrHyphen (c : ascii) : bool :=
  Char.isDigit c || (Char.code c =? 45).

(** [s.replace(/[\d\-]/g, '')] *)
Definition stripDigitsAndHyphens (s : string) : string :=
  Str.filter (fun c => negb (isDigitOrHyphen c)) s.

(** [s.replace(/moderate/gi, 'Medium')]: every match, left to right, the
    search resuming after the eight characters of a match. *)
Fixpoint replaceModerateFrom (s : string) (skip : nat) : string :=
  match s with
  | EmptyString => EmptyString
  | String c r =>
      match skip with
      | S k => replaceModerateFrom r k
      | O =>
          if Str.startsWithCI "moderate" s
          then "Medium" ++ replaceModerateFrom r 7
          else String c (replaceModerateFrom r 0)
      end
  end.

Definition replaceModerate (s : string) : string := replaceModerateFrom s 0.

(** [s.charAt(0).toUpperCase() + s.slice(1).toLowerCase()] *)
Definition capitalize (s : string) : string :=
  match s with
  | EmptyString => EmptyString
  | String c r => String (Char.toUpper c) (Str.toLowerCase r)
  end.

End Priority.

Definition processPriority (priority : string) : string :=
  if Str.isEmpty priority then EmptyString
  else
    let processed := Str.trim (Priority.stripDigitsAndHyphens priority) in
    let processed := Priority.replaceModerate processed in
    if 0 <? String.length processed then Priority.capitalize processed
    else processed.

(** ** Rows *)

Module RawRow.
Record t : Type := mk {
  number : string;
  state : string;
  priority : string;
  assignmentGroup : string;
  shortDescription : string
}.
End RawRow.

Module OutputRow.
Record t : Type := mk {
  number : string;
  state : string;
  priority : string;
  assignmentGroup : string;
  filledBy : string;
  jobName : string
}.
End OutputRow.

(** ** [showNotification] *)

Record Notification : Type := notify {
  message : string;
  type : string
}.

Definition requiredColumnsMissing : Notification :=
  notify "Error: Could not find required columns. Please check your data format." "error".

(** ** [parsePastedData] *)

Module Parser.

(** The [for ... of Object.entries(INPUT_COLUMNS)] loop with its [break]:
    the key of the first column whose name equals the header, both in
    lower case. *)
Fixpoint matchColumn (entries : list (string * string)) (normalizedHeader : string)
  : option string :=
  match entries with
  | [] => None
  | (key, value) :: rest =>
      if String.eqb (Str.toLowerCase normalizedHeader) (Str.toLowerCase value)
      then Some key
      else matchColumn rest normalizedHeader
  end.

(** [headers.forEach((header, index) => ...)], writing into [columnIndices];
    a later header with the same name overwrites an earlier one. *)
Fixpoint indexHeaders (headers : list string) (index : nat)
  (columnIndices : gmap string nat) : gmap string nat :=
  match headers with
  | [] => columnIndices
  | header :: rest =>
      let normalizedHeader := Str.trim header in
      indexHeaders rest (S index)
        match matchColumn INPUT_COLUMNS normalizedHeader with
        | Some key => <[key := index]> columnIndices
        | None => columnIndices
        end
  end.

(** [line.split(/\t/).map(s => s.trim())] *)
Definition cells (line : string) : list string :=
  List.map Str.trim (Str.split TAB line).

Definition columnIndicesOf (headerLine : string) : gmap string nat :=
  indexHeaders (cells headerLine) 0 ∅.

(** [!columnIndices.KEY]: a missing entry ([undefined]) and the index [0]
    are both falsy. *)
Definition falsy (index : option nat) : bool :=
  match index with
  | None => true
  | Some 0 => true
  | Some (S _) => false
  end.

(** [values[i] || ''] *)
Definition orEmpty (value : option string) : string :=
  match value with
  | Some v => if Str.truthy v then v else EmptyString
  | None => EmptyString
  end.

(** [columnIndices.KEY !== undefined ? values[columnIndices.KEY] || '' : ''] *)
Definition field (columnIndices : gmap string nat) (key : string)
  (values : list string) : string :=
  match columnIndices !! key with
  | Some i => orEmpty (values !! i)
  | None => EmptyString
  end.

Definition makeRow (columnIndices : gmap string nat) (line : string) : RawRow.t :=
  let values := cells line in
  RawRow.mk (field columnIndices "NUMBER" values)
            (field columnIndices "STATE" values)
            (field columnIndices "PRIORITY" values)
            (field columnIndices "ASSIGNMENT_GROUP" values)
            (field columnIndices "SHORT_DESCRIPTION" values).

(** [row.number || row.shortDescription] *)
Definition retained (row : RawRow.t) : bool :=
  Str.truthy (RawRow.number row) || Str.truthy (RawRow.shortDescription row).

(** The [for (let i = 1; ...)] loop; [data.push(row)] appends. *)
Fixpoint parseRows (columnIndices : gmap string nat) (lines : list string)
  (data : list RawRow.t) : list RawRow.t :=
  match lines with
  | [] => data
  | line :: rest =>
      let row := makeRow columnIndices line in
      parseRows columnIndices rest (if retained row then data ++ [row] else data)
  end.

(** [text.trim().split('\n').filter(line => line.trim())] *)
Definition nonBlankLines (text : string) : list string :=
  List.filter (fun line => Str.truthy (Str.trim line)) (Str.split LF (Str.trim text)).

End Parser.

(** The result is [None] for [null]; the second component lists the calls of
    [showNotification]. *)
Definition parsePastedData (text : string)
  : option (list RawRow.t) * list Notification :=
  if Str.isEmpty text || Str.isEmpty (Str.trim text) then (None, [])
  else
    match Parser.nonBlankLines text with
    | [] => (None, [])
    | headerLine :: dataLines =>
        let columnIndices := Parser.columnIndicesOf headerLine in
        if Parser.falsy (columnIndices !! "NUMBER")
           && Parser.falsy (columnIndices !! "SHORT_DESCRIPTION")
        then (None, [requiredColumnsMissing])
        else (Some (Parser.parseRows columnIndices dataLines []), [])
    end.

(** ** [processData] and [generateTabSeparatedOutput] *)

Definition processRow (filledBy : string) (row : RawRow.t) : OutputRow.t :=
  let jobName := extractJobName (RawRow.shortDescription row) in
  let processedPriority := processPriority (RawRow.priority row) in
  OutputRow.mk (RawRow.number row) (RawRow.state row) processedPriority
               (RawRow.assignmentGroup row)
               (if Str.truthy filledBy then filledBy else EmptyString)
               jobName.

Definition processData (rawData : list RawRow.t) (filledBy : string)
  : list OutputRow.t :=
  List.map (processRow filledBy) rawData.

Definition rowValues (row : OutputRow.t) : list string :=
  [ OutputRow.number row; OutputRow.state row; OutputRow.priority row;
    OutputRow.assignmentGroup row; OutputRow.filledBy row; OutputRow.jobName row ].

Definition generateTabSeparatedOutput (processedData : list OutputRow.t) : string :=
  match processedData with
  | [] => EmptyString
  | _ =>
      fold_left (fun output row => output ++ Str.join tab (rowValues row) ++ newline)
        processedData (Str.join tab OUTPUT_COLUMNS ++ newline)
  end.

(** ** The click handler of [processBtn] *)

(** The click handler of [processBtn] without its DOM calls: the rows handed
    to [displayOutput], or [None] when the handler returns early. *)
Definition processClick (pasteAreaValue filledByValue : string)
  : option (list OutputRow.t) :=
  let pastedText := Str.trim pasteAreaValue in
  if Str.isEmpty pastedText then None
  else
    match fst (parsePastedData pastedText) with
    | None => None
    | Some rawData => Some (processData rawData (Str.trim filledByValue))
    end.

Definition pasteFirst : Notification :=
  notify "Please paste some data first" "error".

(** [`${n}`] for an array length: its decimal digits. *)
Definition decimal (n : nat) : string :=
  NilEmpty.string_of_uint (Nat.to_uint n).

(** [`Processed ${currentProcessedData.length} rows successfully!`] *)
Definition processed (n : nat) : Notification :=
  notify ("Processed " ++ decimal n ++ " rows successfully!") "success".

(** The same handler with its calls of [showNotification]: the rows handed
    to [displayOutput] and the notifications shown, in order. *)
Definition processBtnClick (pasteAreaValue filledByValue : string)
  : option (list OutputRow.t) * list Notification :=
  let pastedText := Str.trim pasteAreaValue in
  if Str.isEmpty pastedText then (None, [pasteFirst])
  else
    let (rawData, shown) := parsePastedData pastedText in
    match rawData with
    | None => (None, shown)
    | Some rawData =>
        let currentProcessedData := processData rawData (Str.trim filledByValue) in
        (Some currentProcessedData,
         (shown ++ [processed (List.length currentProcessedData)])%list)
    end.

(** ** [copyToClipboard] *)

Module Clipboard.

(** The object built for one table row, from the texts of its six cells:
    each text is trimmed. *)
Definition readBack (cells : OutputRow.t) : OutputRow.t :=
  OutputRow.mk (Str.trim (OutputRow.number cells))
               (Str.trim (OutputRow.state cells))
               (Str.trim (OutputRow.priority cells))
               (Str.trim (OutputRow.assignmentGroup cells))
               (Str.trim (OutputRow.filledBy cells))
               (Str.trim (OutputRow.jobName cells)).

(** The text handed to the clipboard for a table whose rows show [rows]. *)
Definition tabSeparated (rows : list OutputRow.t) : string :=
  generateTabSeparatedOutput (List.map readBack rows).

End Clipboard.

(** * Notions used to state the properties *)

Module OutputSpec.

Definition headerLine : string :=
  "Number" ++ tab ++ "State" ++ tab ++ "Priority" ++ tab ++ "Assignment group"
  ++ tab ++ "filled by" ++ tab ++ "Job name" ++ newline.

(** The line of one retained row: its six fields in the fixed order. *)
Definition rowLine (filledBy : string) (row : RawRow.t) : string :=
  RawRow.number row ++ tab ++ RawRow.state row ++ tab
  ++ processPriority (RawRow.priority row) ++ tab
  ++ RawRow.assignmentGroup row ++ tab ++ filledBy ++ tab
  ++ extractJobName (RawRow.shortDescription row) ++ newline.

Definition concat (pieces : list string) : string :=
  fold_right String.append "" pieces.

(** Header line, then one line per retained row. *)
Definition serialized (rawData : list RawRow.t) (filledBy : string) : string :=
  headerLine ++ concat (List.map (rowLine filledBy) rawData).

End OutputSpec.

(** ** Trimmed fields *)

Module Trimmed.

Definition first (s : string) : option ascii :=
  match s with
  | EmptyString => None
  | String c _ => Some c
  end.

Fixpoint last (s : string) : option ascii :=
  match s with
  | EmptyString => None
  | String c EmptyString => Some c
  | String _ r => last r
  end.

Definition noSpace (c : option ascii) : Prop :=
  forall a, c = Some a -> Char.isWhiteSpace a = false.

(** No white space at either end. *)
Definition text (s : string) : Prop := noSpace (first s) /\ noSpace (last s).

Definition row (r : RawRow.t) : Prop :=
  text (RawRow.number r) /\ text (RawRow.state r) /\ text (RawRow.priority r)
  /\ text (RawRow.assignmentGroup r) /\ text (RawRow.shortDescription r).

(** Does [c] occur in [s]? *)
Fixpoint occurs (c : ascii) (s : string) : bool :=
  match s with
  | EmptyString => false
  | String a r => Ascii.eqb a c || occurs c r
  end.

End Trimmed.

(** The header line of the serialized output. *)
Definition outputHeader : string := Str.join tab OUTPUT_COLUMNS.

(** A serialized row that the data-row loop can read back: every field
    trimmed and free of tabs, and a number that is not empty. *)
Definition roundTrips (row : OutputRow.t) : Prop :=
  Forall (fun value => Trimmed.occurs TAB value = false /\ Str.trim value = value)
    (rowValues row)
  /\ OutputRow.number row <> "".

Definition projected (row : OutputRow.t) : RawRow.t :=
  RawRow.mk (OutputRow.number row) (OutputRow.state row) (OutputRow.priority row)
            (OutputRow.assignmentGroup row) "".

(** [c] occurs in [l], everything before it is strictly shorter and nothing
    after it is longer: the first of the longest entries of [l]. *)
Definition FirstLongest (c : string) (l : list string) : Prop :=
  exists before after,
    l = (before ++ c :: after)%list
    /\ Forall (fun x => String.length x < String.length c) before
    /\ Forall (fun x => String.length x <= String.length c) after.

(** ** Alphabets *)

(** Every character of [s] satisfies [p]. *)
Fixpoint allChars (p : ascii -> bool) (s : string) : bool :=
  match s with
  | EmptyString => true
  | String c r => p c && allChars p r
  end.

(** An upper-case letter, a digit or an underscore. *)
Definition isJobNameChar (c : ascii) : bool :=
  Char.isUpper c || Char.isDigit c || (Char.code c =? 95).

(** ** The priority normalizer *)

Module PrioritySpec.

(** A digit or a hyphen. *)
Definition removed (c : ascii) : bool :=
  Char.isDigit c || Ascii.eqb c "-".

(** [stripped] is [text] without its digits and hyphens. *)
Inductive Stripped : string -> string -> Prop :=
  | stripped_end :
      Stripped "" ""
  | stripped_drop c text stripped :
      removed c = true -> Stripped text stripped ->
      Stripped (String c text) stripped
  | stripped_keep c text stripped :
      removed c = false -> Stripped text stripped ->
      Stripped (String c text) (String c stripped).

(** [trimmed] is [text] without the white space around it. *)
Definition TrimOf (text trimmed : string) : Prop :=
  exists before after,
    text = before ++ trimmed ++ after
    /\ allChars Char.isWhiteSpace before = true
    /\ allChars Char.isWhiteSpace after = true
    /\ Trimmed.text trimmed.

(** [matched] is the word moderate, in any case. *)
Definition Moderate (matched : string) : Prop :=
  Str.toUpperCase matched = "MODERATE".

(** [replaced] is [text] with every occurrence of moderate, taken from left
    to right, replaced by Medium. *)
Inductive Replaced : string -> string -> Prop :=
  | replaced_end :
      Replaced "" ""
  | replaced_here matched rest replaced :
      Moderate matched -> Replaced rest replaced ->
      Replaced (matched ++ rest) ("Medium" ++ replaced)
  | replaced_next c text replaced :
      (forall matched rest, String c text = matched ++ rest -> ~ Moderate matched) ->
      Replaced text replaced ->
      Replaced (String c text) (String c replaced).

(** [result] is [text] with its first character in upper case and every
    other character in lower case. *)
Definition Capitalized (text result : string) : Prop :=
  String.length result = String.length text
  /\ forall i c,
       String.get i text = Some c ->
       String.get i result
       = Some (if i =? 0 then Char.toUpper c else Char.toLower c).

(** The four steps, in order. *)
Definition Normalizes (priority result : string) : Prop :=
  exists stripped trimmed replaced,
    Stripped priority stripped
    /\ TrimOf stripped trimmed
    /\ Replaced trimmed replaced
    /\ Capitalized replaced result.

End PrioritySpec.

(** ** Header cells *)

Module Header.

(** The header cell at [index] names the column [key]. *)
Definition Matches (key : string) (headers : list string) (index : nat) : Prop :=
  exists header,
    headers !! index = Some header
    /\ Parser.matchColumn INPUT_COLUMNS (Str.trim header) = Some key.

End Header.

(** [pieces] with [tail] appended to its last piece. *)
Fixpoint appendLast (tail : string) (pieces : list string) : list string :=
  match pieces with
  | [] => [tail]
  | [piece] => [piece ++ tail]
  | piece :: rest => piece :: appendLast tail rest
  end.

(** No tab and no line feed in any field. *)
Definition singleCells (row : RawRow.t) : Prop :=
  Forall (fun value => Trimmed.occurs TAB value = false
                       /\ Trimmed.occurs LF value = false)
    [ RawRow.number row; RawRow.state row; RawRow.priority row;
      RawRow.assignmentGroup row; RawRow.shortDescription row ].

(** ** The truncation pass *)

Module Truncation.

(** [after] starts with [keyword], letters compared without case. *)
Definition KeywordFollows (keyword after : string) : Prop :=
  exists matched rest,
    after = matched ++ rest
    /\ Str.toUpperCase matched = Str.toUpperCase keyword.

(** [after] starts with four digits. *)
Definition YearFollows (after : string) : Prop :=
  exists a b c d rest,
    after = String a (String b (String c (String d rest)))
    /\ Char.isDigit a = true /\ Char.isDigit b = true
    /\ Char.isDigit c = true /\ Char.isDigit d = true.

(** [s] is [before], an underscore or a hyphen, and a text for which
    [Follows] holds. *)
Definition SeparatorAt (Follows : string -> Prop) (s before : string) : Prop :=
  exists c after,
    s = before ++ String c after
    /\ Char.isSeparator c = true /\ Follows after.

(** [before] is the text before the leftmost such separator. *)
Definition FirstSeparator (Follows : string -> Prop) (s before : string) : Prop :=
  SeparatorAt Follows s before
  /\ forall before', SeparatorAt Follows s before' ->
       String.length before <= String.length before'.

Definition NoSeparator (Follows : string -> Prop) (s : string) : Prop :=
  forall before, ~ SeparatorAt Follows s before.

(** The pass as the specification words it: the keywords are tried in
    order; for each, the keyword check comes first and the year check
    second; the first check that finds a separator cuts the candidate before
    it and ends the pass. *)
Inductive Truncates : list string -> string -> string -> Prop :=
  | no_keyword_left candidate :
      Truncates [] candidate candidate
  | cut_at_keyword keyword keywords candidate before :
      FirstSeparator (KeywordFollows keyword) candidate before ->
      Truncates (keyword :: keywords) candidate before
  | cut_at_year keyword keywords candidate before :
      NoSeparator (KeywordFollows keyword) candidate ->
      FirstSeparator YearFollows candidate before ->
      Truncates (keyword :: keywords) candidate before
  | next_keyword keyword keywords candidate result :
      NoSeparator (KeywordFollows keyword) candidate ->
      NoSeparator YearFollows candidate ->
      Truncates keywords candidate result ->
      Truncates (keyword :: keywords) candidate result.

End Truncation.

(** ** Sample inputs *)

Definition sampleSheet : string :=
  "Number" ++ tab ++ "Caller" ++ tab ++ "Short description" ++ tab ++ "Priority"
  ++ tab ++ "State" ++ tab ++ "Assignment group" ++ newline
  ++ "INC001" ++ tab ++ "ann" ++ tab ++ "UAC Job:x Application:OMS_FEED_LOAD_2024"
  ++ tab ++ "3 - Moderate" ++ tab ++ " Open " ++ tab ++ "OMS-Support" ++ newline
  ++ tab ++ "bob" ++ tab ++ tab ++ "2 - High" ++ tab ++ "New" ++ tab ++ "X" ++ newline
  ++ "INC003" ++ newline.

Definition reorderedSheet : string :=
  "State" ++ tab ++ "Short description" ++ tab ++ "Number" ++ newline
  ++ "Open" ++ tab ++ "Application:OMS_FEED_LOAD_2024" ++ tab ++ "INC001".

(** * Properties *)

(** ** Concrete runs *)

Example extractJobName_storm :
  extractJobName "UAC Job:wf_StormCaster_DEP_OMS_Feed Application:OMS_STORM_CASTER_DEP_OMS_FEED_Sunday..."
  = "OMS_STORM_CASTER_DEP_OMS_FEED".
Proof. vm_compute. reflexivity. Qed.

Example parse_sampleSheet :
  parsePastedData sampleSheet =
  (Some [ RawRow.mk "INC001" "Open" "3 - Moderate" "OMS-Support"
                    "UAC Job:x Application:OMS_FEED_LOAD_2024";
          RawRow.mk "INC003" "" "" "" "" ], []).
Proof. vm_compute. reflexivity. Qed.

Example priority_examples :
  processPriority "2 - High" = "High" /\ processPriority "3 - Moderate" = "Medium"
  /\ processPriority "1 - moderately MODERATE" = "Mediumly medium".
Proof. vm_compute. auto. Qed.

(** ** Strings *)

Section StringFacts.

Implicit Types (s r : string) (c : ascii) (p : ascii -> bool).

Lemma append_empty_r s : s ++ "" = s.
Proof. induction s as [|c r IH]; simpl; [reflexivity | now rewrite IH]. Qed.

Lemma append_assoc s1 s2 s3 : (s1 ++ s2) ++ s3 = s1 ++ (s2 ++ s3).
Proof. induction s1 as [|c r IH]; simpl; [reflexivity | now rewrite IH]. Qed.

Lemma length_append s1 s2 :
  String.length (s1 ++ s2) = String.length s1 + String.length s2.
Proof. induction s1 as [|c r IH]; simpl; [reflexivity | now rewrite IH]. Qed.

Lemma isEmpty_true s : Str.isEmpty s = true <-> s = "".
Proof. destruct s; simpl; split; congruence. Qed.

Lemma isEmpty_length s : Str.isEmpty s = negb (0 <? String.length s).
Proof. now destruct s. Qed.

Lemma map_length f s : String.length (Str.map f s) = String.length s.
Proof. induction s as [|c r IH]; simpl; [reflexivity | now rewrite IH]. Qed.


End StringFacts.

(** ** The priority normalizer *)

Lemma stripDigitsAndHyphens_clean s :
  Str.filter Priority.isDigitOrHyphen (Priority.stripDigitsAndHyphens s) = "".
Proof.
  unfold Priority.stripDigitsAndHyphens.
  induction s as [|c r IH]; simpl; [reflexivity|].
  destruct (Priority.isDigitOrHyphen c) eqn:E; simpl; [assumption|].
  now rewrite E.
Qed.

(** ** The job-name extractor on the documented example *)

(** C5. On the description of the source's own doc comment the extractor
    returns OMS_STORM_CASTER_DEP_OMS_FEED. *)
Theorem extractJobName_documented_example :
  extractJobName
    "UAC Job:wf_StormCaster_DEP_OMS_Feed Application:OMS_STORM_CASTER_DEP_OMS_FEED_Sunday..."
  = "OMS_STORM_CASTER_DEP_OMS_FEED".
Proof. vm_compute. reflexivity. Qed.

(** ** Serialization *)

Lemma fold_left_append {A} (f : A -> string) (l : list A) (acc : string) :
  fold_left (fun output x => output ++ f x) l acc
  = acc ++ OutputSpec.concat (List.map f l).
Proof.
  revert acc. induction l as [|x l IH]; intros acc; simpl.
  - now rewrite append_empty_r.
  - now rewrite IH, append_assoc.
Qed.

Lemma truthy_or_empty s : (if Str.truthy s then s else "") = s.
Proof. now destruct s. Qed.

Lemma rowValues_line filledBy row :
  Str.join tab (rowValues (processRow filledBy row)) ++ newline
  = OutputSpec.rowLine filledBy row.
Proof.
  unfold rowValues, processRow, OutputSpec.rowLine. cbn [Str.join
    OutputRow.number OutputRow.state OutputRow.priority
    OutputRow.assignmentGroup OutputRow.filledBy OutputRow.jobName].
  rewrite truthy_or_empty. now rewrite !append_assoc.
Qed.

Lemma generate_nonempty rawData filledBy :
  rawData <> [] ->
  generateTabSeparatedOutput (processData rawData filledBy)
  = OutputSpec.serialized rawData filledBy.
Proof.
  intros Hne. unfold generateTabSeparatedOutput, OutputSpec.serialized.
  assert (Hlines :
    List.map (fun r => Str.join tab (rowValues r) ++ newline)
      (processData rawData filledBy)
    = List.map (OutputSpec.rowLine filledBy) rawData).
  { unfold processData. rewrite List.map_map.
    apply List.map_ext. intros r. apply rowValues_line. }
  rewrite <- Hlines.
  destruct (processData rawData filledBy) as [|row rest] eqn:E.
  - destruct rawData; [congruence | discriminate].
  - now rewrite (fold_left_append (fun r => Str.join tab (rowValues r) ++ newline)).
Qed.

(** C8, as the code has it. A processing run that retains at least one row
    serializes to the fixed header line followed by one line per retained
    row, the six fields in the order number, state, normalized priority,
    assignment group, filled by, job name, whatever the column order of the
    input was; a run that retains no row serializes to the empty string. *)
Theorem serialized_output_layout pasteAreaValue filledByValue processedData :
  processClick pasteAreaValue filledByValue = Some processedData ->
  exists rawData,
    fst (parsePastedData (Str.trim pasteAreaValue)) = Some rawData
    /\ processedData = processData rawData (Str.trim filledByValue)
    /\ (rawData <> [] ->
        generateTabSeparatedOutput processedData
        = OutputSpec.serialized rawData (Str.trim filledByValue))
    /\ (rawData = [] -> generateTabSeparatedOutput processedData = "").
Proof.
  unfold processClick.
  destruct (Str.isEmpty _); [discriminate|].
  destruct (fst (parsePastedData _)) as [rawData|]; [|discriminate].
  intros [= <-]. exists rawData. repeat split.
  - now apply generate_nonempty.
  - now intros ->.
Qed.

Lemma serialized_output_layout_witness :
  processClick reorderedSheet " ann "
  = Some [OutputRow.mk "INC001" "Open" "" "" "ann" "OMS_FEED_LOAD"]
  /\ generateTabSeparatedOutput
       [OutputRow.mk "INC001" "Open" "" "" "ann" "OMS_FEED_LOAD"]
     = OutputSpec.headerLine
       ++ "INC001" ++ tab ++ "Open" ++ tab ++ tab ++ tab ++ "ann" ++ tab
       ++ "OMS_FEED_LOAD" ++ newline.
Proof.
  assert (Hrun : processClick reorderedSheet " ann "
                 = Some [OutputRow.mk "INC001" "Open" "" "" "ann" "OMS_FEED_LOAD"])
    by (vm_compute; reflexivity).
  split; [exact Hrun|].
  destruct (serialized_output_layout _ _ _ Hrun) as (rawData & Hparse & _ & Hlayout & _).
  assert (HrawData : rawData = [RawRow.mk "INC001" "Open" "" ""
                                  "Application:OMS_FEED_LOAD_2024"]).
  { vm_compute in Hparse. now injection Hparse as <-. }
  subst rawData. rewrite Hlayout by discriminate.
  vm_compute. reflexivity.
Defined.

(** C8 fails as stated on a sheet with a header and no data line: the run
    succeeds with no row, and the serialized text is empty rather than the
    header line. *)
Lemma serialized_output_without_rows :
  processClick ("Short description" ++ tab ++ "Number") "ann" = Some []
  /\ generateTabSeparatedOutput [] <> OutputSpec.serialized [] "ann".
Proof. split; [vm_compute; reflexivity | vm_compute; discriminate]. Qed.

(** ** The table parser *)

Section ParserFacts.

Implicit Types (text line : string) (columnIndices : gmap string nat).

Lemma parseRows_filter columnIndices lines data :
  Parser.parseRows columnIndices lines data
  = (data ++ List.filter Parser.retained
               (List.map (Parser.makeRow columnIndices) lines))%list.
Proof.
  revert data. induction lines as [|line rest IH]; intros data; simpl.
  - now rewrite List.app_nil_r.
  - rewrite IH. destruct (Parser.retained _); [|reflexivity].
    now rewrite <- List.app_assoc.
Qed.

(** What a successful parse returns, in terms of the lines of the text. *)
Lemma parsePastedData_Some text data :
  fst (parsePastedData text) = Some data ->
  exists headerLine dataLines,
    Parser.nonBlankLines text = headerLine :: dataLines
    /\ data = Parser.parseRows (Parser.columnIndicesOf headerLine) dataLines [].
Proof.
  unfold parsePastedData.
  destruct (_ || _); [discriminate|].
  destruct (Parser.nonBlankLines text) as [|headerLine dataLines]; [discriminate|].
  cbv zeta. destruct (_ && _); [discriminate|].
  intros [= <-]. now exists headerLine, dataLines.
Qed.

(** The required-columns test of the code: both entries falsy. *)
Lemma parsePastedData_required_columns text :
  snd (parsePastedData text) = [requiredColumnsMissing] <->
  exists headerLine dataLines,
    Str.trim text <> ""
    /\ Parser.nonBlankLines text = headerLine :: dataLines
    /\ Parser.falsy (Parser.columnIndicesOf headerLine !! "NUMBER") = true
    /\ Parser.falsy (Parser.columnIndicesOf headerLine !! "SHORT_DESCRIPTION") = true.
Proof.
  unfold parsePastedData. split.
  - destruct (Str.isEmpty text || Str.isEmpty (Str.trim text)) eqn:E; [discriminate|].
    apply orb_false_elim in E as [_ E].
    destruct (Parser.nonBlankLines text) as [|headerLine dataLines]; [discriminate|].
    cbv zeta. destruct (_ && _) eqn:F; [|discriminate].
    apply andb_prop in F as [F1 F2]. intros _.
    exists headerLine, dataLines. repeat split; try assumption.
    intros H. apply isEmpty_true in H. congruence.
  - intros (headerLine & dataLines & Htrim & -> & F1 & F2).
    assert (Str.isEmpty (Str.trim text) = false) as ->
      by (destruct (Str.trim text); [congruence | reflexivity]).
    assert (Str.isEmpty text = false) as ->
      by (destruct text; [now elim Htrim | reflexivity]).
    cbv zeta. cbn [orb]. now rewrite F1, F2.
Qed.

End ParserFacts.

(** C7. When parsing succeeds, the output is exactly the data rows whose
    number or short description is not empty, in the order of the input
    lines: a row is in the output if and only if it is the row of some data
    line and one of these two fields is not empty. *)
Theorem parser_retains_rows text data :
  fst (parsePastedData text) = Some data ->
  exists headerLine dataLines,
    Parser.nonBlankLines text = headerLine :: dataLines
    /\ data = List.filter
                (fun row => negb (String.eqb (RawRow.number row) "")
                            || negb (String.eqb (RawRow.shortDescription row) ""))
                (List.map (Parser.makeRow (Parser.columnIndicesOf headerLine)) dataLines)
    /\ forall row,
         List.In row data <->
         (exists line, List.In line dataLines
            /\ row = Parser.makeRow (Parser.columnIndicesOf headerLine) line)
         /\ (RawRow.number row <> "" \/ RawRow.shortDescription row <> "").
Proof.
  intros H. apply parsePastedData_Some in H as (headerLine & dataLines & Hlines & ->).
  exists headerLine, dataLines. split; [assumption|].
  rewrite parseRows_filter. cbn [app].
  assert (Hret : forall row,
            Parser.retained row
            = negb (String.eqb (RawRow.number row) "")
              || negb (String.eqb (RawRow.shortDescription row) "")).
  { intros row. unfold Parser.retained, Str.truthy.
    now destruct (RawRow.number row), (RawRow.shortDescription row). }
  split; [apply List.filter_ext; exact Hret|].
  intros row. rewrite List.filter_In, List.in_map_iff, Hret.
  rewrite orb_true_iff, !negb_true_iff, !String.eqb_neq.
  split.
  - intros [(line & <- & Hin) Hk]. split; [now exists line | exact Hk].
  - intros [(line & Hin & ->) Hk]. split; [now exists line | exact Hk].
Qed.

Lemma parser_retains_rows_witness :
  exists headerLine dataLines,
    Parser.nonBlankLines sampleSheet = headerLine :: dataLines
    /\ List.length dataLines = 3
    /\ List.filter
         (fun row => negb (String.eqb (RawRow.number row) "")
                     || negb (String.eqb (RawRow.shortDescription row) ""))
         (List.map (Parser.makeRow (Parser.columnIndicesOf headerLine)) dataLines)
       = [ RawRow.mk "INC001" "Open" "3 - Moderate" "OMS-Support"
                     "UAC Job:x Application:OMS_FEED_LOAD_2024";
           RawRow.mk "INC003" "" "" "" "" ].
Proof.
  destruct (parser_retains_rows sampleSheet _ (f_equal fst parse_sampleSheet))
    as (headerLine & dataLines & Hlines & Hdata & _).
  exists headerLine, dataLines. split; [assumption|]. split.
  - vm_compute in Hlines. injection Hlines as _ <-. reflexivity.
  - symmetry. exact Hdata.
Defined.

(** ** Trimmed fields *)

Section TrimFacts.

Implicit Types (s r : string) (c : ascii).

Lemma text_empty : Trimmed.text "".
Proof. split; intros a; discriminate. Qed.

Lemma trimStart_first s : Trimmed.noSpace (Trimmed.first (Str.trimStart s)).
Proof.
  induction s as [|c r IH]; simpl; [intros a; discriminate|].
  destruct (Char.isWhiteSpace c) eqn:E; [assumption|].
  intros a [= <-]. exact E.
Qed.

Lemma trimEnd_last s : Trimmed.noSpace (Trimmed.last (Str.trimEnd s)).
Proof.
  induction s as [|c r IH]; simpl; [intros a; discriminate|].
  destruct (Str.trimEnd r) as [|c' r'] eqn:E; simpl.
  - destruct (Char.isWhiteSpace c) eqn:F; [intros a; discriminate|].
    intros a [= <-]. exact F.
  - exact IH.
Qed.

Lemma trimEnd_first s :
  Str.trimEnd s = "" \/ Trimmed.first (Str.trimEnd s) = Trimmed.first s.
Proof.
  destruct s as [|c r]; simpl; [now left|].
  destruct (Str.isEmpty (Str.trimEnd r) && Char.isWhiteSpace c); [now left | now right].
Qed.

Lemma trim_text s : Trimmed.text (Str.trim s).
Proof.
  unfold Str.trim. split; [|apply trimEnd_last].
  destruct (trimEnd_first (Str.trimStart s)) as [-> | ->].
  - intros a; discriminate.
  - apply trimStart_first.
Qed.

Lemma orEmpty_cells line i :
  Trimmed.text (Parser.orEmpty (Parser.cells line !! i)).
Proof.
  unfold Parser.cells. rewrite list_lookup_fmap.
  destruct (Str.split TAB line !! i) as [cell|]; simpl; [|apply text_empty].
  destruct (Str.truthy _); [apply trim_text | apply text_empty].
Qed.

Lemma field_text columnIndices key line :
  Trimmed.text (Parser.field columnIndices key (Parser.cells line)).
Proof.
  unfold Parser.field. destruct (columnIndices !! key); [apply orEmpty_cells | apply text_empty].
Qed.

Lemma makeRow_trimmed columnIndices line :
  Trimmed.row (Parser.makeRow columnIndices line).
Proof. unfold Parser.makeRow, Trimmed.row; cbn. repeat split; apply field_text. Qed.

(** Splitting at a separator undoes joining with it, when no piece holds
    the separator. *)
Lemma split_no_separator sep s :
  Trimmed.occurs sep s = false -> Str.split sep s = [s].
Proof.
  induction s as [|c r IH]; simpl; [reflexivity|].
  intros H. apply orb_false_elim in H as [-> H]. now rewrite IH.
Qed.

Lemma split_append sep s rest :
  Trimmed.occurs sep s = false ->
  Str.split sep (s ++ String sep rest) = s :: Str.split sep rest.
Proof.
  induction s as [|c r IH]; simpl.
  - now rewrite Ascii.eqb_refl.
  - intros H. apply orb_false_elim in H as [-> H]. now rewrite IH.
Qed.

Lemma split_join sep pieces :
  pieces <> [] ->
  Forall (fun piece => Trimmed.occurs sep piece = false) pieces ->
  Str.split sep (Str.join (String sep "") pieces) = pieces.
Proof.
  intros Hne Hall. induction Hall as [|piece rest Hpiece Hrest IH]; [congruence|].
  destruct rest as [|piece' rest'].
  - simpl. now apply split_no_separator.
  - change (Str.join (String sep "") (piece :: piece' :: rest'))
      with (piece ++ String sep (Str.join (String sep "") (piece' :: rest'))).
    rewrite split_append by assumption. f_equal. now apply IH.
Qed.

End TrimFacts.

(** C10. Every field of every row the parser returns has no white space at
    its start or at its end, because each tab-separated cell of a data line
    is trimmed before it is stored; hence two data lines whose cells differ
    only in surrounding white space give the same row. *)
Theorem parser_fields_trimmed :
  (forall text data,
     fst (parsePastedData text) = Some data -> Forall Trimmed.row data)
  /\ (forall columnIndices cells1 cells2,
        Forall (fun cell => Trimmed.occurs TAB cell = false) cells1 ->
        Forall (fun cell => Trimmed.occurs TAB cell = false) cells2 ->
        Forall2 (fun cell1 cell2 => Str.trim cell1 = Str.trim cell2) cells1 cells2 ->
        Parser.makeRow columnIndices (Str.join tab cells1)
        = Parser.makeRow columnIndices (Str.join tab cells2)).
Proof.
  split.
  - intros text data H.
    apply parsePastedData_Some in H as (headerLine & dataLines & _ & ->).
    rewrite parseRows_filter. cbn [app].
    apply List.Forall_forall. intros row Hin.
    apply List.filter_In in Hin as [Hin _].
    apply List.in_map_iff in Hin as (line & <- & _).
    apply makeRow_trimmed.
  - intros columnIndices cells1 cells2 H1 H2 H12.
    assert (Hcells : Parser.cells (Str.join tab cells1)
                     = Parser.cells (Str.join tab cells2)).
    { unfold Parser.cells, tab.
      destruct H12 as [|cell1 cell2 rest1 rest2 Hhd Htl]; [reflexivity|].
      rewrite !split_join by (assumption || discriminate).
      cbn [List.map]. f_equal; [assumption|].
      clear -Htl. induction Htl; [reflexivity|]. cbn [List.map]. now f_equal. }
    unfold Parser.makeRow. now rewrite Hcells.
Qed.

Lemma parser_fields_trimmed_witness :
  Forall Trimmed.row
    [ RawRow.mk "INC001" "Open" "3 - Moderate" "OMS-Support"
                "UAC Job:x Application:OMS_FEED_LOAD_2024";
      RawRow.mk "INC003" "" "" "" "" ]
  /\ Parser.makeRow (Parser.columnIndicesOf ("Number" ++ tab ++ "State"))
       (Str.join tab ["INC001  "; " Open"])
     = Parser.makeRow (Parser.columnIndicesOf ("Number" ++ tab ++ "State"))
         (Str.join tab [" INC001"; "Open "]).
Proof.
  split.
  - apply (proj1 parser_fields_trimmed sampleSheet).
    vm_compute. reflexivity.
  - apply (proj2 parser_fields_trimmed).
    + repeat constructor.
    + repeat constructor.
    + repeat constructor.
Defined.

(** ** The required-columns test and the output header *)

(** C1, on the code. With the header "Number<TAB>State" the Number field is
    matched, at column 0, and the parser still reports the missing-columns
    error and returns no rows: the test reads the stored index 0 as absent. *)
Theorem number_in_column_zero_is_rejected :
  Parser.columnIndicesOf ("Number" ++ tab ++ "State") !! "NUMBER" = Some 0
  /\ parsePastedData
       ("Number" ++ tab ++ "State" ++ newline ++ "INC001" ++ tab ++ "Open")
     = (None, [requiredColumnsMissing])
  /\ Parser.parseRows (Parser.columnIndicesOf ("Number" ++ tab ++ "State"))
       ["INC001" ++ tab ++ "Open"] []
     = [RawRow.mk "INC001" "Open" "" "" ""].
Proof. vm_compute. repeat split; reflexivity. Qed.

Section RoundTrip.

Lemma outputHeader_columns :
  Parser.columnIndicesOf outputHeader !! "NUMBER" = Some 0
  /\ Parser.columnIndicesOf outputHeader !! "STATE" = Some 1
  /\ Parser.columnIndicesOf outputHeader !! "PRIORITY" = Some 2
  /\ Parser.columnIndicesOf outputHeader !! "ASSIGNMENT_GROUP" = Some 3
  /\ Parser.columnIndicesOf outputHeader !! "SHORT_DESCRIPTION" = None.
Proof. vm_compute. repeat split; reflexivity. Qed.

Lemma trimEnd_append s1 s2 :
  Str.trimEnd (s1 ++ s2)
  = if Str.isEmpty (Str.trimEnd s2) then Str.trimEnd s1 else s1 ++ Str.trimEnd s2.
Proof.
  induction s1 as [|c r IH]; simpl.
  - now destruct (Str.trimEnd s2).
  - rewrite IH. destruct (Str.isEmpty (Str.trimEnd s2)) eqn:E; [reflexivity|].
    destruct r; simpl; [now rewrite E | reflexivity].
Qed.

(** The serialized text always starts a parse with the output header as the
    header line. *)
Lemma nonBlankLines_generate row rows :
  exists dataLines,
    Parser.nonBlankLines (generateTabSeparatedOutput (row :: rows))
    = outputHeader :: dataLines.
Proof.
  unfold generateTabSeparatedOutput.
  rewrite fold_left_append. fold outputHeader.
  set (body := OutputSpec.concat _). clearbody body.
  unfold Parser.nonBlankLines, Str.trim.
  assert (Hstart : forall rest, Str.trimStart (outputHeader ++ rest) = outputHeader ++ rest)
    by reflexivity.
  rewrite append_assoc, Hstart, trimEnd_append.
  assert (Hkeep : Str.truthy (Str.trimEnd (Str.trimStart outputHeader)) = true)
    by (vm_compute; reflexivity).
  assert (Hclean : Trimmed.occurs LF outputHeader = false)
    by (vm_compute; reflexivity).
  destruct (trimEnd_first (newline ++ body)) as [E | E].
  - rewrite E. cbn [Str.isEmpty].
    assert (Str.trimEnd outputHeader = outputHeader) as -> by (vm_compute; reflexivity).
    rewrite split_no_separator by assumption.
    cbn [List.filter]. rewrite Hkeep. now exists [].
  - destruct (Str.trimEnd (newline ++ body)) as [|c rest]; [discriminate|].
    injection E as ->. cbn [Str.isEmpty].
    rewrite split_append by assumption.
    cbn [List.filter]. rewrite Hkeep. now eexists.
Qed.

(** X1. Whatever rows are serialized, at least one, parsing the text back
    stops at the required-columns test: the result is null and the
    missing-columns error is shown. *)
Lemma parse_generate_rejected row rows :
  parsePastedData (generateTabSeparatedOutput (row :: rows))
  = (None, [requiredColumnsMissing]).
Proof.
  assert (H : snd (parsePastedData (generateTabSeparatedOutput (row :: rows)))
              = [requiredColumnsMissing]).
  { apply parsePastedData_required_columns.
    destruct (nonBlankLines_generate row rows) as [dataLines Hlines].
    exists outputHeader, dataLines.
    destruct outputHeader_columns as (-> & _ & _ & _ & ->).
    repeat split; try assumption.
    intros Hempty. unfold Parser.nonBlankLines in Hlines.
    rewrite Hempty in Hlines. discriminate. }
  revert H. unfold parsePastedData.
  destruct (_ || _); [discriminate|].
  destruct (Parser.nonBlankLines _); [discriminate|].
  cbv zeta. destruct (_ && _); [reflexivity | discriminate].
Qed.

Lemma makeRow_serialized row :
  roundTrips row ->
  Parser.makeRow (Parser.columnIndicesOf outputHeader) (Str.join tab (rowValues row))
  = projected row.
Proof.
  intros [Hvalues _]. unfold Parser.makeRow, Parser.field, Parser.cells, tab.
  destruct outputHeader_columns as (-> & -> & -> & -> & ->).
  rewrite split_join;
    [| discriminate | eapply List.Forall_impl; [|exact Hvalues]; now intros v [? _]].
  unfold rowValues in *.
  repeat match goal with
         | H : Forall _ (_ :: _) |- _ => apply List.Forall_cons_iff in H as [[_ ?] H]
         end.
  cbn. unfold projected.
  repeat match goal with H : Str.trim _ = _ |- _ => rewrite H; clear H end.
  now rewrite !truthy_or_empty.
Qed.

(** X2. The data-row loop, run with the columns of the output header,
    gives back number, state, priority and assignment group of every
    serialized row whose fields are trimmed and free of tabs and whose
    number is not empty; the short description comes back empty. *)
Lemma parseRows_serialized rows :
  Forall roundTrips rows ->
  Parser.parseRows (Parser.columnIndicesOf outputHeader)
    (List.map (fun row => Str.join tab (rowValues row)) rows) []
  = List.map projected rows.
Proof.
  intros Hall. rewrite parseRows_filter. cbn [app].
  induction Hall as [|row rest Hrow Hrest IH]; [reflexivity|].
  cbn [List.map List.filter]. rewrite makeRow_serialized by assumption.
  rewrite IH. unfold Parser.retained, projected. cbn.
  destruct Hrow as [_ Hnumber].
  now destruct (OutputRow.number row).
Qed.

Lemma parseRows_serialized_witness :
  Parser.parseRows (Parser.columnIndicesOf outputHeader)
    [Str.join tab ["INC001"; "Open"; "High"; "OMS-Support"; "ann"; "OMS_FEED_LOAD"]] []
  = [RawRow.mk "INC001" "Open" "High" "OMS-Support" ""].
Proof.
  apply (parseRows_serialized
           [OutputRow.mk "INC001" "Open" "High" "OMS-Support" "ann" "OMS_FEED_LOAD"]).
  repeat constructor; discriminate.
Defined.

End RoundTrip.

(** C2, on the code. Parsing back the serialization of one clean row ends
    in the missing-columns error, because the output header has Number in
    column 0 and no Short description column; the data-row loop, given the
    columns of that header, does recover the row. *)
Theorem roundtrip_is_rejected :
  let row := OutputRow.mk "INC001" "Open" "High" "OMS-Support" "ann" "OMS_FEED_LOAD" in
  parsePastedData (generateTabSeparatedOutput [row])
  = (None, [requiredColumnsMissing])
  /\ Parser.parseRows (Parser.columnIndicesOf outputHeader)
       [Str.join tab (rowValues row)] []
     = [RawRow.mk "INC001" "Open" "High" "OMS-Support" ""].
Proof. vm_compute. split; reflexivity. Qed.

(** ** Candidate selection *)

Section Selection.

Implicit Types (capture first : string) (matches : list string)
  (best : option string).

Lemma FirstLongest_In c l : FirstLongest c l -> List.In c l.
Proof. intros (before & after & -> & _). apply List.in_elt. Qed.

Lemma FirstLongest_head c l :
  Forall (fun x => String.length x <= String.length c) l -> FirstLongest c (c :: l).
Proof. intros H. exists [], l. repeat split; [constructor | assumption]. Qed.

Lemma FirstLongest_skip x c l :
  String.length x < String.length c -> FirstLongest c l -> FirstLongest c (x :: l).
Proof.
  intros Hx (before & after & -> & Hb & Ha).
  exists (x :: before), after. repeat split; [now constructor | assumption].
Qed.

Lemma matchedText_length capture :
  String.length (JobName.matchedText capture) = 4 + String.length capture.
Proof. reflexivity. Qed.

(** [!bestMatch || t.length > bestMatch.length] is the length test alone,
    the matched texts being at least four characters long. *)
Lemma upperStep_length best capture :
  JobName.upperStep best capture
  = if JobName.isUpperCase (JobName.matchedText capture)
    then if JobName.len best <? String.length (JobName.matchedText capture)
         then Some (JobName.matchedText capture) else best
    else best.
Proof.
  unfold JobName.upperStep. destruct (JobName.isUpperCase _); [|reflexivity].
  destruct best as [[|c r]|]; reflexivity.
Qed.

Lemma weaken_le (n m : nat) (l : list string) :
  n <= m ->
  Forall (fun x => String.length x <= n) l ->
  Forall (fun x => String.length x <= m) l.
Proof. intros Hnm. apply List.Forall_impl. intros x Hx. lia. Qed.

Lemma fold_upperStep matches best :
  let uppers := List.filter JobName.isUpperCase
                  (List.map JobName.matchedText matches) in
  (fold_left JobName.upperStep matches best = best
   /\ Forall (fun u => String.length u <= JobName.len best) uppers)
  \/ (exists c, fold_left JobName.upperStep matches best = Some c
        /\ FirstLongest c uppers /\ JobName.len best < String.length c).
Proof.
  revert best. induction matches as [|capture rest IH]; intros best; cbn zeta.
  - left. split; [reflexivity | constructor].
  - cbn [fold_left List.map List.filter]. rewrite upperStep_length.
    destruct (JobName.isUpperCase (JobName.matchedText capture)) eqn:Eup.
    + destruct (JobName.len best <? _) eqn:Elen.
      * apply Nat.ltb_lt in Elen.
        destruct (IH (Some (JobName.matchedText capture))) as [[-> Hall] | (c & -> & Hc & Hlt)].
        -- right. eexists. split; [reflexivity|].
           split; [now apply FirstLongest_head | assumption].
        -- right. exists c. split; [reflexivity|]. cbn [JobName.len] in Hlt.
           split; [now apply FirstLongest_skip | lia].
      * apply Nat.ltb_ge in Elen.
        destruct (IH best) as [[-> Hall] | (c & -> & Hc & Hlt)].
        -- left. split; [reflexivity|]. now constructor.
        -- right. exists c. split; [reflexivity|].
           split; [apply FirstLongest_skip; [lia | assumption] | assumption].
    + apply IH.
Qed.

Lemma fold_longerStep matches longest :
  let texts := List.map JobName.matchedText matches in
  (fold_left JobName.longerStep matches longest = longest
   /\ Forall (fun t => String.length t <= String.length longest) texts)
  \/ (FirstLongest (fold_left JobName.longerStep matches longest) texts
      /\ String.length longest
         < String.length (fold_left JobName.longerStep matches longest)).
Proof.
  revert longest. induction matches as [|capture rest IH]; intros longest; cbn zeta.
  - left. split; [reflexivity | constructor].
  - cbn [fold_left List.map]. unfold JobName.longerStep at 2 4 6.
    destruct (String.length longest <? _) eqn:Elen.
    + apply Nat.ltb_lt in Elen.
      destruct (IH (JobName.matchedText capture)) as [[-> Hall] | [Hc Hlt]].
      * right. split; [now apply FirstLongest_head | assumption].
      * right. split; [now apply FirstLongest_skip | lia].
    + apply Nat.ltb_ge in Elen.
      destruct (IH longest) as [[-> Hall] | [Hc Hlt]].
      * left. split; [reflexivity|]. now constructor.
      * right. split; [apply FirstLongest_skip; [lia | assumption] | assumption].
Qed.

Lemma longest_first first rest :
  FirstLongest (JobName.longest first (first :: rest))
    (List.map JobName.matchedText (first :: rest)).
Proof.
  unfold JobName.longest. cbn [fold_left List.map].
  unfold JobName.longerStep at 2. rewrite Nat.ltb_irrefl.
  destruct (fold_longerStep rest (JobName.matchedText first)) as [[-> Hall] | [Hc Hlt]].
  - now apply FirstLongest_head.
  - now apply FirstLongest_skip.
Qed.

Lemma candidate_selected first rest :
  let texts := List.map JobName.matchedText (first :: rest) in
  let uppers := List.filter JobName.isUpperCase texts in
  let chosen := JobName.candidate first (first :: rest) in
  (uppers <> [] -> FirstLongest chosen uppers)
  /\ (uppers = [] -> FirstLongest chosen texts).
Proof.
  cbn zeta. unfold JobName.candidate, JobName.bestUpper.
  destruct (fold_upperStep (first :: rest) None) as [[-> Hall] | (c & -> & Hc & Hlt)];
    cbn zeta in *.
  - cbn [JobName.falsy JobName.len] in *.
    assert (Hnone : List.filter JobName.isUpperCase
                      (List.map JobName.matchedText (first :: rest)) = []).
    { destruct (List.filter _ _) as [|u us] eqn:E; [reflexivity|].
      assert (Hin : List.In u (List.filter JobName.isUpperCase
                       (List.map JobName.matchedText (first :: rest))))
        by (rewrite E; now left).
      apply List.filter_In in Hin as [Hin _].
      apply List.in_map_iff in Hin as (capture & <- & _).
      apply List.Forall_cons_iff in Hall as [Hu _].
      rewrite matchedText_length in Hu. lia. }
    split; [congruence | intros _; apply longest_first].
  - assert (JobName.falsy (Some c) = false) as ->
      by (destruct c; [cbn in Hlt; lia | reflexivity]).
    split; [now intros _|].
    intros E. apply FirstLongest_In in Hc. rewrite E in Hc. destruct Hc.
Qed.

Lemma candidate_In first rest :
  exists capture,
    JobName.candidate first (first :: rest) = JobName.matchedText capture.
Proof.
  destruct (candidate_selected first rest) as [Hup Hall]. cbn zeta in *.
  destruct (List.filter JobName.isUpperCase
              (List.map JobName.matchedText (first :: rest))) as [|u us] eqn:E.
  - specialize (Hall eq_refl). apply FirstLongest_In in Hall.
    apply List.in_map_iff in Hall as (capture & <- & _). now exists capture.
  - assert (Hc : FirstLongest (JobName.candidate first (first :: rest)) (u :: us))
      by (apply Hup; discriminate).
    apply FirstLongest_In in Hc. rewrite <- E in Hc.
    apply List.filter_In in Hc as [Hc _].
    apply List.in_map_iff in Hc as (capture & <- & _). now exists capture.
Qed.

Lemma matchAllFrom_empty skip : JobName.matchAllFrom "" skip = [].
Proof. reflexivity. Qed.

Lemma extractJobName_unfold description :
  extractJobName description
  = match JobName.matchAll description with
    | [] => ""
    | first :: rest =>
        Str.toUpperCase
          (JobName.truncate (JobName.candidate first (first :: rest)))
    end.
Proof.
  unfold extractJobName. destruct description as [|c r]; [reflexivity|].
  cbn [Str.isEmpty]. cbv zeta.
  now destruct (JobName.matchAll (String c r)).
Qed.

End Selection.



(** ** The truncation pass *)

Section TruncationFacts.

Import Truncation.

Implicit Types (s before after keyword : string) (follows : string -> bool)
  (Follows : string -> Prop).

Lemma startsWithCI_KeywordFollows keyword after :
  Str.startsWithCI keyword after = true <-> KeywordFollows keyword after.
Proof.
  unfold Str.startsWithCI, KeywordFollows, Str.toUpperCase. revert after.
  induction keyword as [|k keyword IH]; intros after; simpl.
  - split; [intros _; now exists "", after | reflexivity].
  - destruct after as [|c after]; simpl.
    + split; [discriminate|]. intros ([|m matched] & rest & Heq & Hup); discriminate.
    + unfold Char.eqCI. destruct (Ascii.eqb_spec (Char.toUpper k) (Char.toUpper c)) as [E|E].
      * rewrite IH. split.
        -- intros (matched & rest & -> & Hup).
           exists (String c matched), rest. simpl. now rewrite Hup, E.
        -- intros ([|m matched] & rest & Heq & Hup); [discriminate|].
           simpl in Heq, Hup. injection Heq as <- ->. injection Hup as _ Hup.
           now exists matched, rest.
      * split; [discriminate|].
        intros ([|m matched] & rest & Heq & Hup); [discriminate|].
        simpl in Heq, Hup. injection Heq as <- ->. injection Hup as Hc _.
        now elim E.
Qed.

Lemma fourDigits_YearFollows after :
  JobName.fourDigits after = true <-> YearFollows after.
Proof.
  unfold YearFollows. split.
  - destruct after as [|a [|b [|c [|d rest]]]]; simpl; try discriminate.
    rewrite !andb_true_iff. intros [[[Ha Hb] Hc] Hd].
    now exists a, b, c, d, rest.
  - intros (a & b & c & d & rest & -> & Ha & Hb & Hc & Hd).
    simpl. now rewrite Ha, Hb, Hc, Hd.
Qed.

Lemma prefix_cons n c s : Str.prefix (S n) (String c s) = String c (Str.prefix n s).
Proof. reflexivity. Qed.

Lemma prefix_zero s : Str.prefix 0 s = "".
Proof. now destruct s. Qed.

Lemma searchSeparator_Some follows Follows s i :
  (forall after, follows after = true <-> Follows after) ->
  JobName.searchSeparator follows s = Some i ->
  FirstSeparator Follows s (Str.prefix i s) /\ String.length (Str.prefix i s) = i.
Proof.
  intros Hf. revert i. induction s as [|c r IH]; intros i; simpl; [discriminate|].
  destruct (Char.isSeparator c && follows r) eqn:E.
  - intros [= <-]. apply andb_prop in E as [Hc Hr]. rewrite prefix_zero.
    repeat split; [|simpl; lia].
    exists c, r. repeat split; [assumption | now apply Hf].
  - destruct (JobName.searchSeparator follows r) as [j|]; [|discriminate].
    intros [= <-]. rewrite prefix_cons.
    destruct (IH j eq_refl) as [[(c' & after & Hr & Hc' & Hafter) Hmin] Hlen].
    repeat split.
    + exists c', after. repeat split; [|assumption..]. simpl. now rewrite <- Hr.
    + intros [|b before'] (c'' & after' & Heq & Hc'' & Hafter').
      * simpl in Heq. injection Heq as <- <-.
        apply Hf in Hafter'. rewrite Hc'', Hafter' in E. discriminate.
      * simpl in Heq. injection Heq as <- ->. simpl.
        apply le_n_S, Hmin. now exists c'', after'.
    + simpl. now rewrite Hlen.
Qed.

Lemma searchSeparator_None follows Follows s :
  (forall after, follows after = true <-> Follows after) ->
  JobName.searchSeparator follows s = None ->
  NoSeparator Follows s.
Proof.
  intros Hf. induction s as [|c r IH]; simpl.
  - intros _ [|b before] (c' & after & Heq & _); discriminate.
  - destruct (Char.isSeparator c && follows r) eqn:E; [discriminate|].
    destruct (JobName.searchSeparator follows r) as [j|]; [discriminate|].
    intros _ [|b before] (c' & after & Heq & Hc' & Hafter).
    + simpl in Heq. injection Heq as <- <-.
      apply Hf in Hafter. rewrite Hc', Hafter in E. discriminate.
    + simpl in Heq. injection Heq as <- ->.
      apply (IH eq_refl before). now exists c', after.
Qed.

(** The text before the leftmost separator is unique. *)
Lemma FirstSeparator_unique Follows s before1 before2 :
  FirstSeparator Follows s before1 -> FirstSeparator Follows s before2 ->
  before1 = before2.
Proof.
  intros [H1 Hmin1] [H2 Hmin2].
  assert (Hlen : String.length before1 = String.length before2)
    by (apply Nat.le_antisymm; [now apply Hmin1 | now apply Hmin2]).
  destruct H1 as (c1 & after1 & -> & _). destruct H2 as (c2 & after2 & Heq & _).
  clear Hmin1 Hmin2. revert before2 Hlen Heq.
  induction before1 as [|a before1 IH]; intros [|b before2]; simpl; try discriminate.
  - reflexivity.
  - intros [= Hlen] [= -> Heq]. f_equal. now apply IH.
Qed.

Lemma truncateLoop_Truncates keywords candidate :
  Truncates keywords candidate (JobName.truncateLoop keywords candidate).
Proof.
  induction keywords as [|keyword keywords IH]; simpl; [constructor|].
  unfold JobName.searchKeyword, JobName.searchYear.
  destruct (JobName.searchSeparator (Str.startsWithCI keyword) candidate) as [i|] eqn:Ek.
  - apply cut_at_keyword.
    now apply (searchSeparator_Some _ _ _ _ (startsWithCI_KeywordFollows keyword)).
  - pose proof (searchSeparator_None _ _ _ (startsWithCI_KeywordFollows keyword) Ek) as Hk.
    destruct (JobName.searchSeparator JobName.fourDigits candidate) as [j|] eqn:Ey.
    + apply cut_at_year; [assumption|].
      now apply (searchSeparator_Some _ _ _ _ fourDigits_YearFollows).
    + apply next_keyword; [assumption| |assumption].
      exact (searchSeparator_None _ _ _ fourDigits_YearFollows Ey).
Qed.

Lemma Truncates_unique keywords candidate result :
  Truncates keywords candidate result ->
  result = JobName.truncateLoop keywords candidate.
Proof.
  intros H.
  induction H as [candidate | keyword keywords candidate before Hk
                 | keyword keywords candidate before Hno Hy
                 | keyword keywords candidate result Hno Hnoy Hrest IH];
    simpl; [reflexivity|..]; unfold JobName.searchKeyword, JobName.searchYear;
    (destruct (JobName.searchSeparator (Str.startsWithCI keyword) candidate)
       as [i|] eqn:Ek;
     [ apply (searchSeparator_Some _ _ _ _ (startsWithCI_KeywordFollows keyword))
         in Ek as [Hk' _]
     | apply (searchSeparator_None _ _ _ (startsWithCI_KeywordFollows keyword))
         in Ek ]).
  - exact (FirstSeparator_unique _ _ _ _ Hk Hk').
  - destruct Hk as [Hk _]. now elim (Ek _ Hk).
  - destruct Hk' as [Hk' _]. now elim (Hno _ Hk').
  - destruct (JobName.searchSeparator JobName.fourDigits candidate) as [j|] eqn:Ey.
    + apply (searchSeparator_Some _ _ _ _ fourDigits_YearFollows) in Ey as [Hy' _].
      exact (FirstSeparator_unique _ _ _ _ Hy Hy').
    + apply (searchSeparator_None _ _ _ fourDigits_YearFollows) in Ey.
      destruct Hy as [Hy _]. now elim (Ey _ Hy).
  - destruct Hk' as [Hk' _]. now elim (Hno _ Hk').
  - destruct (JobName.searchSeparator JobName.fourDigits candidate) as [j|] eqn:Ey.
    + apply (searchSeparator_Some _ _ _ _ fourDigits_YearFollows) in Ey as [[Hy' _] _].
      now elim (Hnoy _ Hy').
    + exact IH.
Qed.

End TruncationFacts.

(** C3. The keywords are tried in the order Sunday to Saturday, then January
    to December. For each keyword the candidate is searched for an
    underscore or hyphen followed by the keyword in any case and then, in
    the same iteration, for an underscore or hyphen followed by four digits;
    the first search that succeeds cuts the candidate before the leftmost
    such separator and ends the pass. Hence a candidate with a separator and
    year but no separator and Sunday is cut at the year, whatever weekday or
    month names it holds. *)
Theorem truncation_pass :
  JobName.dateKeywords
  = [ "Sunday"; "Monday"; "Tuesday"; "Wednesday"; "Thursday"; "Friday";
      "Saturday"; "January"; "February"; "March"; "April"; "May"; "June";
      "July"; "August"; "September"; "October"; "November"; "December" ]
  /\ (forall candidate result,
        Truncation.Truncates JobName.dateKeywords candidate result
        <-> JobName.truncate candidate = result)
  /\ (forall candidate before,
        Truncation.NoSeparator (Truncation.KeywordFollows "Sunday") candidate ->
        Truncation.FirstSeparator Truncation.YearFollows candidate before ->
        JobName.truncate candidate = before).
Proof.
  split; [reflexivity|]. split.
  - intros candidate result. unfold JobName.truncate. split.
    + intros H. symmetry. now apply Truncates_unique.
    + intros <-. apply truncateLoop_Truncates.
  - intros candidate before Hno Hyear. symmetry.
    apply Truncates_unique. now apply Truncation.cut_at_year.
Qed.

Lemma truncation_pass_witness :
  JobName.truncate "OMS_A_Monday_2024" = "OMS_A_Monday"
  /\ JobName.truncate "OMS_A-2024_Monday" = "OMS_A".
Proof.
  split.
  - apply (proj2 (proj2 truncation_pass)).
    + apply (searchSeparator_None (Str.startsWithCI "Sunday"));
        [apply startsWithCI_KeywordFollows | reflexivity].
    + apply (searchSeparator_Some JobName.fourDigits _ "OMS_A_Monday_2024" 12);
        [apply fourDigits_YearFollows | reflexivity].
  - apply (proj2 (proj2 truncation_pass)).
    + apply (searchSeparator_None (Str.startsWithCI "Sunday"));
        [apply startsWithCI_KeywordFollows | reflexivity].
    + apply (searchSeparator_Some JobName.fourDigits _ "OMS_A-2024_Monday" 5);
        [apply fourDigits_YearFollows | reflexivity].
Defined.

(** ** The prefix of the job name *)

Section PrefixFacts.

Implicit Types (capture candidate : string) (follows : string -> bool).

Lemma truncateLoop_cases keywords candidate :
  JobName.truncateLoop keywords candidate = candidate
  \/ exists follows i,
       JobName.searchSeparator follows candidate = Some i
       /\ JobName.truncateLoop keywords candidate = Str.prefix i candidate.
Proof.
  induction keywords as [|keyword keywords IH]; simpl; [now left|].
  destruct (JobName.searchKeyword keyword candidate) as [i|] eqn:Ek.
  - right. now exists (Str.startsWithCI keyword), i.
  - destruct (JobName.searchYear candidate) as [j|] eqn:Ey; [|exact IH].
    right. now exists JobName.fourDigits, j.
Qed.

Lemma searchSeparator_matchedText follows capture i :
  JobName.searchSeparator follows (JobName.matchedText capture) = Some i -> 3 <= i.
Proof.
  unfold JobName.matchedText. simpl.
  match goal with
  | |- option_map S (option_map S (option_map S ?found)) = _ -> _ =>
      destruct found as [j|]; simpl; [|discriminate]
  end.
  intros [= <-]. lia.
Qed.

Lemma prefix_matchedText capture i :
  3 <= i -> exists rest, Str.prefix i (JobName.matchedText capture) = "OMS" ++ rest.
Proof.
  destruct i as [|[|[|i]]]; try lia. intros _.
  now exists (Str.prefix i (String "_" capture)).
Qed.

Lemma extractJobName_prefix description :
  extractJobName description = ""
  \/ exists rest, extractJobName description = "OMS" ++ rest.
Proof.
  rewrite extractJobName_unfold.
  destruct (JobName.matchAll description) as [|first rest]; [now left|]. right.
  destruct (candidate_In first rest) as [capture ->]. unfold JobName.truncate.
  destruct (truncateLoop_cases JobName.dateKeywords (JobName.matchedText capture))
    as [-> | (follows & i & Hi & ->)].
  - now exists (Str.toUpperCase (String "_" capture)).
  - apply searchSeparator_matchedText in Hi.
    destruct (prefix_matchedText capture i Hi) as [kept ->].
    now exists (Str.toUpperCase kept).
Qed.

End PrefixFacts.

(** C9. For every input the extractor returns the empty string or a string
    that begins with OMS and so has at least three characters: a separator
    of a candidate is never at an index below 3, so the cut keeps OMS; the
    cut can remove the underscore itself, as on ":OMS_2024", which gives
    exactly OMS. *)
Theorem extractJobName_keeps_OMS :
  (forall description,
     extractJobName description = ""
     \/ (exists rest, extractJobName description = "OMS" ++ rest)
        /\ 3 <= String.length (extractJobName description))
  /\ (forall follows capture i,
        JobName.searchSeparator follows (JobName.matchedText capture) = Some i ->
        3 <= i)
  /\ extractJobName ":OMS_2024" = "OMS".
Proof.
  split; [|split; [exact searchSeparator_matchedText | reflexivity]].
  intros description.
  destruct (extractJobName_prefix description) as [E | [rest E]]; [now left|].
  right. split; [now exists rest|]. rewrite E. simpl. lia.
Qed.

Lemma extractJobName_keeps_OMS_witness :
  JobName.searchSeparator JobName.fourDigits (JobName.matchedText "2024") = Some 3
  /\ 3 <= 3.
Proof.
  split; [reflexivity|].
  apply (proj1 (proj2 extractJobName_keeps_OMS) JobName.fourDigits "2024" 3).
  reflexivity.
Defined.

(** * Further properties of the code *)

(** ** Blank input and the three outcomes of the parser *)

Section ParserOutcomes.

Implicit Types (text line : string).

(** A text with a character left after trimming has a first line that is
    not blank. *)
Lemma nonBlankLines_nonempty text :
  Str.trim text <> "" -> Parser.nonBlankLines text <> [].
Proof.
  unfold Parser.nonBlankLines. intros Hne.
  destruct (Str.trim text) as [|c r] eqn:E; [congruence|].
  assert (Hc : Char.isWhiteSpace c = false).
  { pose proof (trim_text text) as [Hfirst _]. rewrite E in Hfirst.
    now apply Hfirst. }
  assert (Hkeep : forall piece, Str.truthy (Str.trim (String c piece)) = true).
  { intros piece. unfold Str.trim. simpl. rewrite Hc. simpl.
    now rewrite Hc, andb_false_r. }
  simpl. destruct (Ascii.eqb_spec c LF) as [-> | _]; [discriminate|].
  destruct (Str.split LF r) as [|piece pieces]; simpl; now rewrite Hkeep.
Qed.

Lemma trim_blank_lines text : Str.trim text = "" -> Parser.nonBlankLines text = [].
Proof. unfold Parser.nonBlankLines. now intros ->. Qed.

Lemma parsePastedData_cases text :
  (Str.trim text = "" /\ parsePastedData text = (None, []))
  \/ (Str.trim text <> "" /\
      ((exists headerLine dataLines,
          Parser.nonBlankLines text = headerLine :: dataLines
          /\ Parser.falsy (Parser.columnIndicesOf headerLine !! "NUMBER")
             && Parser.falsy (Parser.columnIndicesOf headerLine !! "SHORT_DESCRIPTION")
             = true
          /\ parsePastedData text = (None, [requiredColumnsMissing]))
       \/ (exists headerLine dataLines,
             Parser.nonBlankLines text = headerLine :: dataLines
             /\ Parser.falsy (Parser.columnIndicesOf headerLine !! "NUMBER")
                && Parser.falsy (Parser.columnIndicesOf headerLine !! "SHORT_DESCRIPTION")
                = false
             /\ parsePastedData text
                = (Some (Parser.parseRows (Parser.columnIndicesOf headerLine)
                           dataLines []), [])))).
Proof.
  unfold parsePastedData.
  destruct (Str.trim text) as [|c r] eqn:E.
  - left. split; [reflexivity|]. now rewrite orb_true_r.
  - right. split; [discriminate|].
    assert (Str.isEmpty text = false) as -> by now destruct text.
    cbn [Str.isEmpty orb].
    pose proof (nonBlankLines_nonempty text) as Hlines. rewrite E in Hlines.
    destruct (Parser.nonBlankLines text) as [|headerLine dataLines];
      [now elim Hlines|].
    cbv zeta. destruct (_ && _) eqn:F; [left | right];
      now exists headerLine, dataLines.
Qed.

End ParserOutcomes.

(** X3. The parser returns null without a notification exactly on a text
    that is empty after trimming: past the first test, a text always has a
    header line, so the length test on the lines decides nothing. *)
Theorem parsePastedData_silent_null text :
  parsePastedData text = (None, []) <-> Str.trim text = "".
Proof.
  destruct (parsePastedData_cases text)
    as [[Hblank ->] | [Hne [(h & d & _ & _ & ->) | (h & d & _ & _ & ->)]]];
    split; intros H; (assumption || reflexivity || discriminate || now elim Hne).
Qed.

(** X4. The parser returns rows exactly when the text has a header line in
    which Number or Short description is matched at a column other than
    the first. *)
Theorem parsePastedData_accepts text :
  fst (parsePastedData text) <> None <->
  exists headerLine dataLines,
    Parser.nonBlankLines text = headerLine :: dataLines
    /\ ((exists i, Parser.columnIndicesOf headerLine !! "NUMBER" = Some (S i))
        \/ (exists i, Parser.columnIndicesOf headerLine !! "SHORT_DESCRIPTION"
                      = Some (S i))).
Proof.
  assert (Hfalsy : forall index,
            Parser.falsy index = false <-> exists i, index = Some (S i)).
  { intros [[|i]|]; simpl; split; try discriminate;
      try (intros [j Hj]; discriminate); eauto. }
  destruct (parsePastedData_cases text)
    as [[Hblank ->] | [Hne [(h & d & Hlines & F & ->) | (h & d & Hlines & F & ->)]]];
    simpl; split; try congruence.
  - intros (h & d & Hlines & _). rewrite (trim_blank_lines _ Hblank) in Hlines.
    discriminate.
  - intros (h' & d' & Hlines' & Hcol). rewrite Hlines in Hlines'.
    injection Hlines' as <- <-. apply andb_prop in F as [F1 F2].
    destruct Hcol as [Hcol | Hcol]; apply Hfalsy in Hcol; congruence.
  - intros _. exists h, d. split; [assumption|].
    apply andb_false_iff in F as [F | F]; apply Hfalsy in F; auto.
Qed.

(** ** Header matching *)

Section HeaderFacts.

Implicit Types (headers : list string) (key header : string)
  (columnIndices : gmap string nat).

Lemma matchColumn_In entries header key :
  Parser.matchColumn entries header = Some key ->
  exists value,
    List.In (key, value) entries
    /\ Str.toLowerCase header = Str.toLowerCase value.
Proof.
  induction entries as [|[k v] entries IH]; simpl; [discriminate|].
  destruct (String.eqb_spec (Str.toLowerCase header) (Str.toLowerCase v)) as [E|_].
  - intros [= <-]. exists v. auto.
  - intros H. destruct (IH H) as (value & Hin & Hlow). exists value. auto.
Qed.

Lemma indexHeaders_lookup headers start columnIndices key i :
  Parser.indexHeaders headers start columnIndices !! key = Some i <->
  (exists j, i = start + j /\ Header.Matches key headers j
             /\ forall k, j < k -> ~ Header.Matches key headers k)
  \/ (columnIndices !! key = Some i
      /\ forall k, ~ Header.Matches key headers k).
Proof.
  revert start columnIndices.
  induction headers as [|header headers IH]; intros start columnIndices.
  - simpl. split.
    + intros H. right. split; [assumption|]. intros k (h & Hk & _). discriminate.
    + intros [(j & _ & (h & Hj & _) & _) | [H _]]; [discriminate | assumption].
  - cbn [Parser.indexHeaders]. rewrite IH. clear IH.
    assert (Hshift : forall k, Header.Matches key (header :: headers) (S k)
                               <-> Header.Matches key headers k)
      by (intros k; reflexivity).
    assert (Hhead : Header.Matches key (header :: headers) 0
                    <-> Parser.matchColumn INPUT_COLUMNS (Str.trim header) = Some key).
    { split; [now intros (h & [= <-] & Hm) | intros Hm; now exists header]. }
    split.
    + intros [(j & -> & Hj & Hlater) | [Hmap Hnone]].
      * left. exists (S j). split; [lia|]. split; [now apply Hshift|].
        intros [|k] Hk; [lia|]. rewrite Hshift. apply Hlater. lia.
      * destruct (Parser.matchColumn INPUT_COLUMNS (Str.trim header)) as [k|] eqn:Em.
        -- destruct (decide (k = key)) as [-> | Hne].
           ++ rewrite lookup_insert_eq in Hmap. injection Hmap as <-.
              left. exists 0. split; [lia|]. split; [now apply Hhead|].
              intros [|k] Hk; [lia|]. rewrite Hshift. apply Hnone.
           ++ rewrite lookup_insert_ne in Hmap by assumption.
              right. split; [assumption|].
              intros [|j]; [rewrite Hhead; congruence | rewrite Hshift; apply Hnone].
        -- right. split; [assumption|].
           intros [|j]; [rewrite Hhead; congruence | rewrite Hshift; apply Hnone].
    + intros [(j & -> & Hj & Hlater) | [Hmap Hnone]].
      * destruct j as [|j].
        -- right. apply Hhead in Hj. rewrite Hj, lookup_insert_eq.
           split; [f_equal; lia|].
           intros k Hk. apply (Hlater (S k)); [lia | now apply Hshift].
        -- left. exists j. split; [lia|]. split; [now apply Hshift|].
           intros k Hk Hm. apply (Hlater (S k)); [lia | now apply Hshift].
      * right. split.
        -- destruct (Parser.matchColumn INPUT_COLUMNS (Str.trim header)) as [k|] eqn:Em;
             [|assumption].
           rewrite lookup_insert_ne; [assumption|].
           intros ->. apply (Hnone 0). now apply Hhead.
        -- intros k Hk. apply (Hnone (S k)). now apply Hshift.
Qed.

End HeaderFacts.

(** X5. The index stored for a column is that of the last header cell that
    names it: a later cell with the same name overwrites an earlier one. *)
Theorem columnIndices_last_match headerLine key i :
  Parser.columnIndicesOf headerLine !! key = Some i <->
  Header.Matches key (Parser.cells headerLine) i
  /\ forall j, i < j -> ~ Header.Matches key (Parser.cells headerLine) j.
Proof.
  unfold Parser.columnIndicesOf. rewrite indexHeaders_lookup. split.
  - intros [(j & -> & Hj & Hlater) | [Hmap _]]; [now split|].
    rewrite lookup_empty in Hmap. discriminate.
  - intros [Hi Hlater]. left. now exists i.
Qed.

(** X6. A header cell names a column exactly when it equals the column's
    name once both are in lower case; the ten names differ in lower case,
    so the [break] of the search never hides a second candidate. *)
Theorem matchColumn_case_insensitive header key :
  Parser.matchColumn INPUT_COLUMNS header = Some key <->
  exists value,
    List.In (key, value) INPUT_COLUMNS
    /\ Str.toLowerCase header = Str.toLowerCase value.
Proof.
  split; [apply matchColumn_In|].
  intros (value & Hin & Hlow). unfold INPUT_COLUMNS in *.
  cbn [Parser.matchColumn]. rewrite Hlow. cbn [List.In] in Hin.
  repeat (destruct Hin as [[= <- <-] | Hin]; [reflexivity|]).
  destruct Hin.
Qed.

(** ** Trimming twice, carriage returns, and cells on one line *)

Section CellFacts.

Implicit Types (s r line text : string) (c sep : ascii).

Lemma trimStart_fixed s :
  Trimmed.noSpace (Trimmed.first s) -> Str.trimStart s = s.
Proof.
  destruct s as [|c r]; simpl; [reflexivity|].
  intros H. now rewrite (H c eq_refl).
Qed.

Lemma trimEnd_fixed s :
  Trimmed.noSpace (Trimmed.last s) -> Str.trimEnd s = s.
Proof.
  induction s as [|c r IH]; simpl; [reflexivity|].
  destruct r as [|c' r'].
  - intros H. simpl. now rewrite (H c eq_refl).
  - intros H. rewrite (IH H). reflexivity.
Qed.

Lemma trim_fixed s : Trimmed.text s -> Str.trim s = s.
Proof.
  intros [Hfirst Hlast]. unfold Str.trim.
  rewrite (trimStart_fixed s Hfirst). now apply trimEnd_fixed.
Qed.

Lemma trim_idempotent s : Str.trim (Str.trim s) = Str.trim s.
Proof. apply trim_fixed, trim_text. Qed.

Lemma trimStart_append s1 s2 :
  Str.trimStart (s1 ++ s2)
  = if Str.isEmpty (Str.trimStart s1) then Str.trimStart s2
    else Str.trimStart s1 ++ s2.
Proof.
  induction s1 as [|c r IH]; simpl; [reflexivity|].
  destruct (Char.isWhiteSpace c); [exact IH | reflexivity].
Qed.

(** White space after a text is trimmed away with it. *)
Lemma trim_append_blank s blank :
  Str.trim blank = "" -> Str.trim (s ++ blank) = Str.trim s.
Proof.
  unfold Str.trim. intros Hblank. rewrite trimStart_append.
  destruct (Str.trimStart s) as [|c r] eqn:E; cbn [Str.isEmpty].
  - assumption.
  - rewrite trimEnd_append.
    assert (Str.trimEnd blank = "") as ->; [|reflexivity].
    clear -Hblank. induction blank as [|c r IH]; [reflexivity|].
    simpl in *. destruct (Char.isWhiteSpace c) eqn:Ec.
    + rewrite (IH Hblank). reflexivity.
    + simpl in Hblank. rewrite Ec, andb_false_r in Hblank. discriminate.
Qed.

Lemma split_nonempty sep s : Str.split sep s <> [].
Proof.
  destruct s as [|c r]; simpl; [discriminate|].
  destruct (Ascii.eqb c sep); [discriminate|].
  now destruct (Str.split sep r).
Qed.

Lemma split_appendLast sep s tail :
  Trimmed.occurs sep tail = false ->
  Str.split sep (s ++ tail) = appendLast tail (Str.split sep s).
Proof.
  intros Htail. induction s as [|c r IH]; simpl.
  - now apply split_no_separator.
  - rewrite IH. pose proof (split_nonempty sep r) as Hne.
    destruct (Ascii.eqb c sep).
    + now destruct (Str.split sep r).
    + now destruct (Str.split sep r) as [|piece [|piece' pieces]].
Qed.

Lemma map_trim_appendLast blank pieces :
  pieces <> [] -> Str.trim blank = "" ->
  List.map Str.trim (appendLast blank pieces) = List.map Str.trim pieces.
Proof.
  intros Hne Hblank. induction pieces as [|piece [|piece' rest] IH]; [congruence| |].
  - simpl. now rewrite trim_append_blank.
  - change (appendLast blank (piece :: piece' :: rest))
      with (piece :: appendLast blank (piece' :: rest)).
    cbn [List.map]. f_equal. now apply IH.
Qed.

Lemma cells_append_blank line blank :
  Trimmed.occurs TAB blank = false -> Str.trim blank = "" ->
  Parser.cells (line ++ blank) = Parser.cells line.
Proof.
  intros Htab Hblank. unfold Parser.cells.
  rewrite split_appendLast by assumption.
  apply map_trim_appendLast; [apply split_nonempty | assumption].
Qed.

(** The pieces of a split hold no separator, and no character that the
    text did not hold. *)
Lemma split_pieces sep c s :
  Forall (fun piece =>
            Trimmed.occurs sep piece = false
            /\ (Trimmed.occurs c s = false -> Trimmed.occurs c piece = false))
    (Str.split sep s).
Proof.
  induction s as [|a r IH]; simpl.
  - repeat constructor.
  - destruct (Ascii.eqb_spec a sep) as [-> | Hne].
    + constructor; [now split|].
      eapply List.Forall_impl; [|exact IH].
      intros piece [H1 H2]. split; [assumption|].
      intros H. apply orb_false_elim in H as [_ H]. auto.
    + pose proof (split_nonempty sep r) as Hsome.
      destruct (Str.split sep r) as [|piece pieces]; [congruence|].
      apply List.Forall_cons_iff in IH as [[H1 H2] IH].
      constructor.
      * simpl. split.
        -- rewrite H1. now apply Ascii.eqb_neq in Hne as ->.
        -- intros H. apply orb_false_elim in H as [-> H]. now rewrite H2.
      * eapply List.Forall_impl; [|exact IH].
        intros p [G1 G2]. split; [assumption|].
        intros H. apply orb_false_elim in H as [_ H]. auto.
Qed.

Lemma occurs_trimStart c s :
  Trimmed.occurs c s = false -> Trimmed.occurs c (Str.trimStart s) = false.
Proof.
  induction s as [|a r IH]; simpl; [reflexivity|].
  intros H. destruct (Char.isWhiteSpace a); [|exact H].
  apply orb_false_elim in H as [_ H]. auto.
Qed.

Lemma occurs_trimEnd c s :
  Trimmed.occurs c s = false -> Trimmed.occurs c (Str.trimEnd s) = false.
Proof.
  induction s as [|a r IH]; simpl; [reflexivity|].
  intros H. apply orb_false_elim in H as [Ha H].
  destruct (Str.isEmpty (Str.trimEnd r) && Char.isWhiteSpace a); [reflexivity|].
  simpl. now rewrite Ha, IH.
Qed.

Lemma occurs_trim c s :
  Trimmed.occurs c s = false -> Trimmed.occurs c (Str.trim s) = false.
Proof. intros H. now apply occurs_trimEnd, occurs_trimStart. Qed.

Lemma occurs_cells c line :
  Trimmed.occurs c line = false \/ c = TAB ->
  Forall (fun cell => Trimmed.occurs c cell = false) (Parser.cells line).
Proof.
  intros H. unfold Parser.cells. apply List.Forall_map.
  eapply List.Forall_impl; [|exact (split_pieces TAB c line)].
  intros piece [H1 H2]. apply occurs_trim.
  destruct H as [H | ->]; auto.
Qed.

Lemma occurs_field c columnIndices key line :
  Trimmed.occurs c line = false \/ c = TAB ->
  Trimmed.occurs c (Parser.field columnIndices key (Parser.cells line)) = false.
Proof.
  intros H. unfold Parser.field.
  destruct (columnIndices !! key) as [i|]; [|reflexivity].
  destruct (Parser.cells line !! i) as [cell|] eqn:E; [|reflexivity].
  simpl. destruct (Str.truthy cell); [|reflexivity].
  pose proof (occurs_cells c line H) as Hall.
  rewrite List.Forall_forall in Hall. apply Hall.
  apply list_elem_of_In. eapply list_elem_of_lookup_2. exact E.
Qed.

Lemma nonBlankLines_single text :
  Forall (fun line => Trimmed.occurs LF line = false) (Parser.nonBlankLines text).
Proof.
  unfold Parser.nonBlankLines. apply List.Forall_forall. intros line Hin.
  apply List.filter_In in Hin as [Hin _].
  pose proof (split_pieces LF LF (Str.trim text)) as Hall.
  rewrite List.Forall_forall in Hall. now apply Hall in Hin as [Hline _].
Qed.

End CellFacts.

(** X7. Every header cell handed to the column search is already trimmed:
    the second [trim] of the header loop changes nothing, as trimming is
    idempotent. *)
Theorem header_cells_already_trimmed :
  (forall s, Str.trim (Str.trim s) = Str.trim s)
  /\ (forall headerLine header,
        List.In header (Parser.cells headerLine) -> Str.trim header = header).
Proof.
  split; [exact trim_idempotent|].
  intros headerLine header Hin. unfold Parser.cells in Hin.
  apply List.in_map_iff in Hin as (piece & <- & _). apply trim_idempotent.
Qed.

Lemma header_cells_already_trimmed_witness :
  Parser.cells (" Number " ++ tab ++ "State") = ["Number"; "State"]
  /\ Str.trim "Number" = "Number".
Proof.
  split; [reflexivity|].
  apply (proj2 header_cells_already_trimmed (" Number " ++ tab ++ "State")).
  left. reflexivity.
Defined.

(** X8. A carriage return, or any other white space but a tab, at the end
    of a line changes neither the columns found in a header line nor the
    row built from a data line. *)
Theorem trailing_blank_ignored line blank columnIndices :
  Trimmed.occurs TAB blank = false -> Str.trim blank = "" ->
  Parser.columnIndicesOf (line ++ blank) = Parser.columnIndicesOf line
  /\ Parser.makeRow columnIndices (line ++ blank)
     = Parser.makeRow columnIndices line.
Proof.
  intros Htab Hblank. unfold Parser.columnIndicesOf, Parser.makeRow.
  now rewrite (cells_append_blank line blank Htab Hblank).
Qed.

Lemma trailing_blank_ignored_witness :
  Parser.columnIndicesOf ("State" ++ tab ++ "Number" ++ String (ascii_of_nat 13) "")
  = Parser.columnIndicesOf ("State" ++ tab ++ "Number")
  /\ Parser.makeRow (Parser.columnIndicesOf ("State" ++ tab ++ "Number"))
       ("Open" ++ tab ++ "INC001" ++ String (ascii_of_nat 13) "")
     = RawRow.mk "INC001" "Open" "" "" "".
Proof.
  destruct (trailing_blank_ignored ("State" ++ tab ++ "Number")
              (String (ascii_of_nat 13) "")
              (Parser.columnIndicesOf ("State" ++ tab ++ "Number"))
              eq_refl eq_refl) as [Hheader _].
  destruct (trailing_blank_ignored ("Open" ++ tab ++ "INC001")
              (String (ascii_of_nat 13) "")
              (Parser.columnIndicesOf ("State" ++ tab ++ "Number"))
              eq_refl eq_refl) as [_ Hrow].
  split; [exact Hheader|].
  etransitivity; [exact Hrow|]. vm_compute. reflexivity.
Defined.

(** X9. No field of a row the parser returns holds a tab or a line feed:
    the text was split at line feeds and each line at tabs. *)
Theorem parser_fields_single_cells text data :
  fst (parsePastedData text) = Some data -> Forall singleCells data.
Proof.
  intros H. apply parsePastedData_Some in H as (headerLine & dataLines & Hlines & ->).
  rewrite parseRows_filter. cbn [app].
  apply List.Forall_forall. intros row Hin.
  apply List.filter_In in Hin as [Hin _].
  apply List.in_map_iff in Hin as (line & <- & Hin).
  assert (Hline : Trimmed.occurs LF line = false).
  { pose proof (nonBlankLines_single text) as Hall. rewrite Hlines in Hall.
    apply List.Forall_cons_iff in Hall as [_ Hall].
    rewrite List.Forall_forall in Hall. now apply Hall. }
  unfold singleCells, Parser.makeRow. cbn.
  repeat constructor; apply occurs_field; auto.
Qed.

Lemma parser_fields_single_cells_witness :
  Forall singleCells
    [ RawRow.mk "INC001" "Open" "3 - Moderate" "OMS-Support"
                "UAC Job:x Application:OMS_FEED_LOAD_2024";
      RawRow.mk "INC003" "" "" "" "" ].
Proof.
  apply (parser_fields_single_cells sampleSheet). vm_compute. reflexivity.
Defined.

(** ** What the priority normalizer returns *)

Section PriorityFacts.

Implicit Types (s r : string) (c : ascii) (p : ascii -> bool).

Lemma filter_append p s1 s2 :
  Str.filter p (s1 ++ s2) = Str.filter p s1 ++ Str.filter p s2.
Proof.
  induction s1 as [|c r IH]; simpl; [reflexivity|].
  destruct (p c); simpl; now rewrite IH.
Qed.

Lemma filter_cons_empty p c r :
  Str.filter p (String c r) = "" <-> p c = false /\ Str.filter p r = "".
Proof. simpl. destruct (p c); split; (discriminate || tauto || now intros [? ?]). Qed.

Lemma filter_trimStart p s : Str.filter p s = "" -> Str.filter p (Str.trimStart s) = "".
Proof.
  induction s as [|c r IH]; [reflexivity|]. intros H.
  cbn [Str.trimStart]. destruct (Char.isWhiteSpace c); [|assumption].
  apply filter_cons_empty in H as [_ H]. auto.
Qed.

Lemma filter_trimEnd p s : Str.filter p s = "" -> Str.filter p (Str.trimEnd s) = "".
Proof.
  induction s as [|c r IH]; [reflexivity|]. intros H.
  apply filter_cons_empty in H as [Hc H]. cbn [Str.trimEnd]. cbv zeta.
  destruct (Str.isEmpty (Str.trimEnd r) && Char.isWhiteSpace c); [reflexivity|].
  apply filter_cons_empty. auto.
Qed.

Lemma filter_replaceModerateFrom p s skip :
  Str.filter p "Medium" = "" -> Str.filter p s = "" ->
  Str.filter p (Priority.replaceModerateFrom s skip) = "".
Proof.
  intros Hmedium. revert skip. induction s as [|c r IH]; intros skip H; [reflexivity|].
  apply filter_cons_empty in H as [Hc H]. cbn [Priority.replaceModerateFrom].
  destruct skip as [|k]; [|now apply IH].
  destruct (Str.startsWithCI "moderate" (String c r)).
  - rewrite filter_append, Hmedium. now apply IH.
  - apply filter_cons_empty. auto.
Qed.

Lemma filter_map p f s :
  (forall c, p (f c) = p c) -> Str.filter p s = "" -> Str.filter p (Str.map f s) = "".
Proof.
  intros Hf. induction s as [|c r IH]; [reflexivity|]. intros H.
  apply filter_cons_empty in H as [Hc H]. cbn [Str.map].
  apply filter_cons_empty. rewrite Hf. auto.
Qed.

Lemma isDigitOrHyphen_toUpper c :
  Priority.isDigitOrHyphen (Char.toUpper c) = Priority.isDigitOrHyphen c.
Proof. destruct c as [[] [] [] [] [] [] [] []]; reflexivity. Qed.

Lemma isDigitOrHyphen_toLower c :
  Priority.isDigitOrHyphen (Char.toLower c) = Priority.isDigitOrHyphen c.
Proof. destruct c as [[] [] [] [] [] [] [] []]; reflexivity. Qed.

Lemma isWhiteSpace_toUpper c : Char.isWhiteSpace (Char.toUpper c) = Char.isWhiteSpace c.
Proof. destruct c as [[] [] [] [] [] [] [] []]; reflexivity. Qed.

Lemma isWhiteSpace_toLower c : Char.isWhiteSpace (Char.toLower c) = Char.isWhiteSpace c.
Proof. destruct c as [[] [] [] [] [] [] [] []]; reflexivity. Qed.

Lemma last_none s : Trimmed.last s = None -> s = "".
Proof.
  induction s as [|c r IH]; simpl; [reflexivity|].
  destruct r; [discriminate|]. intros H. now apply IH in H.
Qed.

Lemma last_append s1 s2 :
  Trimmed.last (s1 ++ s2)
  = match Trimmed.last s2 with Some c => Some c | None => Trimmed.last s1 end.
Proof.
  induction s1 as [|c r IH]; [cbn [String.append]; now destruct (Trimmed.last s2)|].
  destruct r as [|c' r'].
  - cbn [String.append]. destruct s2 as [|a s2']; [reflexivity|].
    change (Trimmed.last (String c (String a s2')))
      with (Trimmed.last (String a s2')).
    destruct (Trimmed.last (String a s2')) eqn:E; [reflexivity|].
    apply last_none in E. discriminate.
  - change (Trimmed.last (String c (String c' r') ++ s2))
      with (Trimmed.last (String c' r' ++ s2)).
    now rewrite IH.
Qed.

Lemma last_map f s : Trimmed.last (Str.map f s) = option_map f (Trimmed.last s).
Proof.
  induction s as [|c r IH]; simpl; [reflexivity|].
  rewrite IH. now destruct r.
Qed.

(** The last character of the replaced text is the last one of the text or
    the [m] that ends [Medium]. *)
Lemma last_replaceModerateFrom s skip :
  Trimmed.noSpace (Trimmed.last s) ->
  Trimmed.noSpace (Trimmed.last (Priority.replaceModerateFrom s skip)).
Proof.
  revert skip. induction s as [|c r IH]; intros skip H; [assumption|].
  assert (Hr : r <> "" -> Trimmed.noSpace (Trimmed.last r))
    by (destruct r; [congruence | intros _; exact H]).
  assert (Hrest : forall k,
            Trimmed.noSpace (Trimmed.last (Priority.replaceModerateFrom r k))).
  { intros k. destruct r; [intros a; discriminate | apply IH, Hr; discriminate]. }
  cbn [Priority.replaceModerateFrom]. destruct skip as [|k]; [|apply Hrest].
  destruct (Str.startsWithCI "moderate" (String c r)).
  - rewrite last_append.
    destruct (Trimmed.last (Priority.replaceModerateFrom r 7)) as [a|] eqn:E.
    + rewrite <- E. apply Hrest.
    + intros a [= <-]. reflexivity.
  - change (String c (Priority.replaceModerateFrom r 0))
      with (String c "" ++ Priority.replaceModerateFrom r 0).
    rewrite last_append.
    destruct (Trimmed.last (Priority.replaceModerateFrom r 0)) as [a|] eqn:E.
    + rewrite <- E. apply Hrest.
    + apply last_none in E. destruct r as [|c' r'].
      * exact H.
      * cbn [Priority.replaceModerateFrom] in E.
        destruct (Str.startsWithCI "moderate" (String c' r')); discriminate.
Qed.

Lemma first_replaceModerate s :
  Trimmed.noSpace (Trimmed.first s) ->
  Trimmed.noSpace (Trimmed.first (Priority.replaceModerate s)).
Proof.
  unfold Priority.replaceModerate. destruct s as [|c r]; [trivial|].
  cbn [Priority.replaceModerateFrom].
  destruct (Str.startsWithCI "moderate" (String c r)); [|trivial].
  intros _ a [= <-]. reflexivity.
Qed.

Lemma capitalize_text s : Trimmed.text s -> Trimmed.text (Priority.capitalize s).
Proof.
  destruct s as [|c r]; [trivial|]. intros [Hfirst Hlast]. split.
  - intros a [= <-]. rewrite isWhiteSpace_toUpper. now apply Hfirst.
  - unfold Priority.capitalize, Str.toLowerCase.
    change (String (Char.toUpper c) (Str.map Char.toLower r))
      with (String (Char.toUpper c) "" ++ Str.map Char.toLower r).
    rewrite last_append, last_map.
    destruct r as [|c' r'].
    + intros a [= <-]. rewrite isWhiteSpace_toUpper. now apply Hlast.
    + destruct (Trimmed.last (String c' r')) as [b|] eqn:E.
      * intros a [= <-]. rewrite isWhiteSpace_toLower. now apply Hlast.
      * apply last_none in E. discriminate.
Qed.

Lemma processPriority_unfold priority :
  processPriority priority
  = Priority.capitalize
      (Priority.replaceModerate
         (Str.trim (Priority.stripDigitsAndHyphens priority))).
Proof.
  unfold processPriority. destruct priority as [|c r]; [reflexivity|].
  cbn [Str.isEmpty]. now destruct (Priority.replaceModerate _).
Qed.

End PriorityFacts.

(** X10. The normalized priority never holds a digit or a hyphen: none is
    left by the first replacement and none comes back with "Medium" or
    with the change of case. *)
Theorem processPriority_no_digit_or_hyphen priority :
  Str.filter Priority.isDigitOrHyphen (processPriority priority) = "".
Proof.
  rewrite processPriority_unfold.
  assert (H : Str.filter Priority.isDigitOrHyphen
                (Priority.replaceModerate
                   (Str.trim (Priority.stripDigitsAndHyphens priority))) = "").
  { apply filter_replaceModerateFrom; [reflexivity|].
    apply filter_trimEnd, filter_trimStart, stripDigitsAndHyphens_clean. }
  destruct (Priority.replaceModerate _) as [|c r]; [reflexivity|].
  apply filter_cons_empty in H as [Hc H]. apply filter_cons_empty.
  rewrite isDigitOrHyphen_toUpper. split; [assumption|].
  apply filter_map; [apply isDigitOrHyphen_toLower | assumption].
Qed.

Lemma processPriority_text priority : Trimmed.text (processPriority priority).
Proof.
  rewrite processPriority_unfold. apply capitalize_text.
  destruct (trim_text (Priority.stripDigitsAndHyphens priority)) as [Hfirst Hlast].
  split; [now apply first_replaceModerate | now apply last_replaceModerateFrom].
Qed.

(** X11. The normalized priority has no white space at its start or at its
    end, so trimming it again changes nothing: replacing "moderate" and
    changing case keep the text trimmed. *)
Theorem processPriority_trimmed priority :
  Trimmed.text (processPriority priority)
  /\ Str.trim (processPriority priority) = processPriority priority.
Proof.
  split; [apply processPriority_text | apply trim_fixed, processPriority_text].
Qed.

(** ** What the job-name extractor returns *)

Section JobNameFacts.

Implicit Types (s r capture description : string) (c : ascii)
  (p q : ascii -> bool).

Lemma allChars_takeWhile p s : allChars p (Str.takeWhile p s) = true.
Proof.
  induction s as [|c r IH]; simpl; [reflexivity|].
  destruct (p c) eqn:E; simpl; [now rewrite E | reflexivity].
Qed.

Lemma allChars_prefix p i s :
  allChars p s = true -> allChars p (Str.prefix i s) = true.
Proof.
  unfold Str.prefix. revert i. induction s as [|c r IH]; intros [|i]; simpl; trivial.
  intros H. apply andb_prop in H as [-> H]. now apply IH.
Qed.

Lemma allChars_map p q f s :
  (forall c, p c = true -> q (f c) = true) ->
  allChars p s = true -> allChars q (Str.map f s) = true.
Proof.
  intros Hf. induction s as [|c r IH]; simpl; [reflexivity|].
  intros H. apply andb_prop in H as [Hc H]. now rewrite (Hf c Hc), IH.
Qed.

Lemma isWord_toUpper c : Char.isWord c = true -> isJobNameChar (Char.toUpper c) = true.
Proof. destruct c as [[] [] [] [] [] [] [] []]; (reflexivity || discriminate). Qed.

Lemma isJobNameChar_noSpace c : isJobNameChar c = true -> Char.isWhiteSpace c = false.
Proof. destruct c as [[] [] [] [] [] [] [] []]; (reflexivity || discriminate). Qed.

Lemma matchAt_colon c r :
  Ascii.eqb c ":" = false -> JobName.matchAt (String c r) = None.
Proof. destruct c as [[] [] [] [] [] [] [] []]; (reflexivity || discriminate). Qed.

Lemma matchAt_capture s capture n :
  JobName.matchAt s = Some (capture, n) ->
  capture <> "" /\ allChars Char.isWord capture = true.
Proof.
  destruct s as [|c r]; [discriminate|].
  destruct (Ascii.eqb_spec c ":") as [-> | Hne];
    [|rewrite matchAt_colon by (now apply Ascii.eqb_neq); discriminate].
  cbn [JobName.matchAt]. cbv zeta.
  destruct (Str.stripPrefixCI "OMS_" _) as [r2|]; [|discriminate].
  destruct (Str.takeWhile Char.isWord r2) as [|a w] eqn:E; [discriminate|].
  cbn [Str.isEmpty]. intros [= <- _]. split; [discriminate|].
  rewrite <- E. apply allChars_takeWhile.
Qed.

Lemma matchAllFrom_captures s skip capture :
  List.In capture (JobName.matchAllFrom s skip) ->
  capture <> "" /\ allChars Char.isWord capture = true.
Proof.
  revert skip. induction s as [|c r IH]; intros skip; [intros []|].
  cbn [JobName.matchAllFrom]. destruct skip as [|k]; [|apply IH].
  destruct (JobName.matchAt (String c r)) as [[w n]|] eqn:E; [|apply IH].
  intros [<- | Hin]; [exact (matchAt_capture _ _ _ E) | exact (IH _ Hin)].
Qed.

Lemma matchAllFrom_needs_colon s skip :
  Trimmed.occurs ":" s = false -> JobName.matchAllFrom s skip = [].
Proof.
  revert skip. induction s as [|c r IH]; intros skip; [reflexivity|].
  cbn [JobName.matchAllFrom Trimmed.occurs].
  intros H. apply orb_false_elim in H as [Hc H].
  destruct skip as [|k]; [|now apply IH].
  rewrite (matchAt_colon c r Hc). now apply IH.
Qed.

Lemma candidate_from_matches first rest :
  exists capture,
    List.In capture (first :: rest)
    /\ JobName.candidate first (first :: rest) = JobName.matchedText capture.
Proof.
  destruct (candidate_selected first rest) as [Hup Hall]. cbv zeta in *.
  destruct (List.filter JobName.isUpperCase
              (List.map JobName.matchedText (first :: rest))) as [|u us] eqn:E.
  - specialize (Hall eq_refl). apply FirstLongest_In in Hall.
    apply List.in_map_iff in Hall as (capture & <- & Hin). now exists capture.
  - assert (Hc : FirstLongest (JobName.candidate first (first :: rest)) (u :: us))
      by (apply Hup; discriminate).
    apply FirstLongest_In in Hc. rewrite <- E in Hc.
    apply List.filter_In in Hc as [Hc _].
    apply List.in_map_iff in Hc as (capture & <- & Hin). now exists capture.
Qed.

(** The result on a description with a match: a capture of the description,
    prefixed by OMS_, cut at an index of 3 or more or not at all, in upper
    case. *)
Lemma extractJobName_of_matches description first rest :
  JobName.matchAll description = first :: rest ->
  exists capture kept,
    List.In capture (first :: rest)
    /\ extractJobName description = Str.toUpperCase ("OMS" ++ kept)
    /\ (kept = String "_" capture
        \/ exists i, kept = Str.prefix i (String "_" capture)).
Proof.
  intros Hm. rewrite extractJobName_unfold, Hm.
  destruct (candidate_from_matches first rest) as (capture & Hin & ->).
  exists capture. unfold JobName.truncate.
  destruct (truncateLoop_cases JobName.dateKeywords (JobName.matchedText capture))
    as [-> | (follows & i & Hi & ->)].
  - exists (String "_" capture). repeat split; auto.
  - apply searchSeparator_matchedText in Hi.
    destruct i as [|[|[|i]]]; try lia.
    exists (Str.prefix i (String "_" capture)). repeat split; eauto.
Qed.

Lemma extractJobName_chars description :
  allChars isJobNameChar (extractJobName description) = true.
Proof.
  destruct (JobName.matchAll description) as [|first rest] eqn:Hm.
  - now rewrite extractJobName_unfold, Hm.
  - destruct (extractJobName_of_matches _ _ _ Hm)
      as (capture & kept & Hin & -> & Hkept).
    unfold JobName.matchAll in Hm. rewrite <- Hm in Hin.
    apply matchAllFrom_captures in Hin as [_ Hword].
    apply (allChars_map Char.isWord); [exact isWord_toUpper|].
    change (allChars Char.isWord kept = true).
    destruct Hkept as [-> | [i ->]]; [|apply allChars_prefix]; exact Hword.
Qed.

Lemma allChars_occurs p c s :
  p c = false -> allChars p s = true -> Trimmed.occurs c s = false.
Proof.
  intros Hc. induction s as [|a r IH]; simpl; [reflexivity|].
  intros H. apply andb_prop in H as [Ha H]. rewrite (IH H), orb_false_r.
  apply Ascii.eqb_neq. congruence.
Qed.

Lemma allChars_text p s :
  (forall c, p c = true -> Char.isWhiteSpace c = false) ->
  allChars p s = true -> Trimmed.text s.
Proof.
  intros Hp H. split.
  - destruct s as [|c r]; [intros a; discriminate|].
    simpl in H. apply andb_prop in H as [Hc _]. intros a [= <-]. auto.
  - induction s as [|c r IH]; [intros a; discriminate|].
    simpl in H. apply andb_prop in H as [Hc H].
    destruct r as [|c' r']; [intros a [= <-]; auto | exact (IH H)].
Qed.

End JobNameFacts.

(** X12. Every character of an extracted job name is an upper-case letter,
    a digit or an underscore; in particular a job name holds no hyphen, so
    only an underscore ever separates a date from it. *)
Theorem extractJobName_alphabet description :
  allChars isJobNameChar (extractJobName description) = true
  /\ Trimmed.occurs "-" (extractJobName description) = false.
Proof.
  pose proof (extractJobName_chars description) as H.
  split; [assumption|]. now apply (allChars_occurs isJobNameChar).
Qed.


(** X14. A description without a colon gives no job name, whatever OMS_
    texts it holds: every occurrence of the pattern starts at a colon. *)
Theorem extractJobName_needs_colon description :
  Trimmed.occurs ":" description = false -> extractJobName description = "".
Proof.
  intros H. rewrite extractJobName_unfold. unfold JobName.matchAll.
  now rewrite matchAllFrom_needs_colon.
Qed.

Lemma extractJobName_needs_colon_witness :
  extractJobName "Application OMS_STORM_CASTER_Sunday" = "".
Proof. apply extractJobName_needs_colon. reflexivity. Defined.

(** ** Splitting, joining and the lines of the output *)

Section LineFacts.

Implicit Types (s r : string) (c sep : ascii) (pieces : list string).

Lemma join_split sep s : Str.join (String sep "") (Str.split sep s) = s.
Proof.
  induction s as [|c r IH]; [reflexivity|].
  pose proof (split_nonempty sep r) as Hne. cbn [Str.split].
  destruct (Ascii.eqb_spec c sep) as [-> | _].
  - destruct (Str.split sep r) as [|piece rest]; [congruence|].
    change (Str.join (String sep "") ("" :: piece :: rest))
      with (String sep (Str.join (String sep "") (piece :: rest))).
    now rewrite IH.
  - destruct (Str.split sep r) as [|piece [|piece' rest]]; [congruence| |].
    + simpl in IH. now subst r.
    + change (Str.join (String sep "") (String c piece :: piece' :: rest))
        with (String c (Str.join (String sep "") (piece :: piece' :: rest))).
      now rewrite IH.
Qed.

Lemma occurs_append c s1 s2 :
  Trimmed.occurs c (s1 ++ s2) = Trimmed.occurs c s1 || Trimmed.occurs c s2.
Proof.
  induction s1 as [|a r IH]; simpl; [reflexivity|].
  now rewrite IH, orb_assoc.
Qed.

Lemma occurs_join c (glue : string) pieces :
  Trimmed.occurs c glue = false ->
  Forall (fun piece => Trimmed.occurs c piece = false) pieces ->
  Trimmed.occurs c (Str.join glue pieces) = false.
Proof.
  intros Hglue Hall. induction Hall as [|piece rest Hpiece Hrest IH]; [reflexivity|].
  destruct rest as [|piece' rest']; [exact Hpiece|].
  change (Str.join glue (piece :: piece' :: rest'))
    with (piece ++ glue ++ Str.join glue (piece' :: rest')).
  now rewrite !occurs_append, Hpiece, Hglue, IH.
Qed.

Lemma split_lines {A} (f : A -> string) (l : list A) :
  Forall (fun x => Trimmed.occurs LF (f x) = false) l ->
  Str.split LF (OutputSpec.concat (List.map (fun x => f x ++ newline) l))
  = (List.map f l ++ [""])%list.
Proof.
  intros Hall. induction Hall as [|x rest Hx Hrest IH]; [reflexivity|].
  cbn [List.map OutputSpec.concat fold_right app].
  unfold newline at 1. rewrite append_assoc.
  change (String LF "" ++ ?s) with (String LF s).
  rewrite split_append by assumption. f_equal. exact IH.
Qed.

End LineFacts.

(** X15. Joining the pieces of a split gives the text back, and splitting
    a joined list gives the pieces back when no piece holds the
    separator. *)
Theorem split_join_inverse sep :
  (forall s, Str.join (String sep "") (Str.split sep s) = s)
  /\ (forall pieces,
        pieces <> [] ->
        Forall (fun piece => Trimmed.occurs sep piece = false) pieces ->
        Str.split sep (Str.join (String sep "") pieces) = pieces).
Proof. split; [apply join_split | apply split_join]. Qed.

Lemma split_join_inverse_witness :
  Str.split TAB (Str.join tab ["INC001"; ""; "Open"]) = ["INC001"; ""; "Open"].
Proof.
  apply (proj2 (split_join_inverse TAB)); [discriminate|].
  repeat constructor.
Defined.

(** X16. Split at line feeds, the text serialized for at least one row is
    the header, one piece per row holding its six values joined by tabs,
    and an empty last piece, provided no value holds a line feed. *)
Theorem serialized_output_lines processedData :
  processedData <> [] ->
  Forall (fun row => Forall (fun value => Trimmed.occurs LF value = false)
                       (rowValues row)) processedData ->
  Str.split LF (generateTabSeparatedOutput processedData)
  = (outputHeader
     :: List.map (fun row => Str.join tab (rowValues row)) processedData
     ++ [""])%list.
Proof.
  intros Hne Hall. unfold generateTabSeparatedOutput.
  destruct processedData as [|row rows]; [congruence|].
  rewrite (fold_left_append (fun row => Str.join tab (rowValues row) ++ newline)).
  fold outputHeader. unfold newline at 1. rewrite append_assoc.
  change (String LF "" ++ ?s) with (String LF s).
  rewrite split_append by reflexivity. f_equal.
  apply (split_lines (fun row => Str.join tab (rowValues row))).
  eapply List.Forall_impl; [|exact Hall].
  intros r Hr. now apply occurs_join.
Qed.

Lemma serialized_output_lines_witness :
  Str.split LF
    (generateTabSeparatedOutput
       [OutputRow.mk "INC001" "Open" "High" "OMS-Support" "ann" "OMS_FEED_LOAD"])
  = [ outputHeader;
      Str.join tab ["INC001"; "Open"; "High"; "OMS-Support"; "ann"; "OMS_FEED_LOAD"];
      "" ].
Proof.
  apply (serialized_output_lines
           [OutputRow.mk "INC001" "Open" "High" "OMS-Support" "ann" "OMS_FEED_LOAD"]);
    [discriminate|].
  repeat constructor.
Defined.

(** ** The click handler and the clipboard *)

Section HandlerFacts.

Implicit Types (pasteAreaValue filledByValue text : string).

Lemma parsed_rows_trimmed text data :
  fst (parsePastedData text) = Some data -> Forall Trimmed.row data.
Proof.
  intros H. apply parsePastedData_Some in H as (headerLine & dataLines & _ & ->).
  rewrite parseRows_filter. cbn [app].
  apply List.Forall_forall. intros row Hin.
  apply List.filter_In in Hin as [Hin _].
  apply List.in_map_iff in Hin as (line & <- & _).
  apply makeRow_trimmed.
Qed.

Lemma readBack_processRow filledByValue row :
  Trimmed.row row ->
  Clipboard.readBack (processRow (Str.trim filledByValue) row)
  = processRow (Str.trim filledByValue) row.
Proof.
  intros (Hnumber & Hstate & _ & Hgroup & _).
  unfold Clipboard.readBack, processRow. cbv zeta.
  cbn [OutputRow.number OutputRow.state OutputRow.priority
       OutputRow.assignmentGroup OutputRow.filledBy OutputRow.jobName].
  rewrite truthy_or_empty.
  rewrite (trim_fixed _ Hnumber), (trim_fixed _ Hstate), (trim_fixed _ Hgroup).
  rewrite (trim_fixed _ (processPriority_text _)), trim_idempotent.
  rewrite (trim_fixed (extractJobName _)); [reflexivity|].
  apply (allChars_text isJobNameChar);
    [exact isJobNameChar_noSpace | apply extractJobName_chars].
Qed.

Lemma processClick_Some pasteAreaValue filledByValue processedData :
  processClick pasteAreaValue filledByValue = Some processedData ->
  exists rawData,
    fst (parsePastedData (Str.trim pasteAreaValue)) = Some rawData
    /\ processedData = processData rawData (Str.trim filledByValue).
Proof.
  unfold processClick. destruct (Str.isEmpty _); [discriminate|].
  destruct (fst (parsePastedData _)) as [rawData|]; [|discriminate].
  intros [= <-]. now exists rawData.
Qed.

End HandlerFacts.

(** X17. Every click on the process button shows exactly one notification:
    the request to paste data, the missing-columns error, or the count of
    processed rows; rows are displayed only in the last case, and the count
    is their number. *)
Theorem processBtnClick_notifies_once pasteAreaValue filledByValue :
  fst (processBtnClick pasteAreaValue filledByValue)
  = processClick pasteAreaValue filledByValue
  /\ match processClick pasteAreaValue filledByValue with
     | Some processedData =>
         snd (processBtnClick pasteAreaValue filledByValue)
         = [processed (List.length processedData)]
     | None =>
         snd (processBtnClick pasteAreaValue filledByValue)
         = [if Str.isEmpty (Str.trim pasteAreaValue) then pasteFirst
            else requiredColumnsMissing]
     end.
Proof.
  unfold processBtnClick, processClick. cbv zeta.
  destruct (Str.isEmpty (Str.trim pasteAreaValue)) eqn:E; [now split|].
  destruct (parsePastedData_cases (Str.trim pasteAreaValue))
    as [[Hblank _] | [_ [(h & d & _ & _ & ->) | (h & d & _ & _ & ->)]]].
  - rewrite trim_idempotent in Hblank. rewrite Hblank in E. discriminate.
  - now split.
  - now split.
Qed.

(** X18. For the rows a click displays, trimming the six cell texts again,
    as the copy does, changes nothing: the text copied is the serialization
    of the displayed rows. *)
Theorem clipboard_text_is_serialization pasteAreaValue filledByValue processedData :
  processClick pasteAreaValue filledByValue = Some processedData ->
  List.map Clipboard.readBack processedData = processedData
  /\ Clipboard.tabSeparated processedData
     = generateTabSeparatedOutput processedData.
Proof.
  intros H. apply processClick_Some in H as (rawData & Hparse & ->).
  assert (Hsame : List.map Clipboard.readBack
                    (processData rawData (Str.trim filledByValue))
                  = processData rawData (Str.trim filledByValue)).
  { apply parsed_rows_trimmed in Hparse. unfold processData.
    rewrite List.map_map. apply List.map_ext_in. intros row Hin.
    rewrite List.Forall_forall in Hparse. now apply readBack_processRow, Hparse. }
  split; [assumption|]. unfold Clipboard.tabSeparated. now rewrite Hsame.
Qed.

Lemma clipboard_text_is_serialization_witness :
  Clipboard.tabSeparated [OutputRow.mk "INC001" "Open" "" "" "ann" "OMS_FEED_LOAD"]
  = generateTabSeparatedOutput
      [OutputRow.mk "INC001" "Open" "" "" "ann" "OMS_FEED_LOAD"].
Proof.
  apply (clipboard_text_is_serialization reorderedSheet " ann ").
  vm_compute. reflexivity.
Defined.

(** ** The parser and the case of a priority *)

Section Insensitivity.

Implicit Types (s t r text : string) (c d : ascii).

Lemma parsePastedData_blank_test text :
  Str.isEmpty text || Str.isEmpty (Str.trim text) = Str.isEmpty (Str.trim text).
Proof. now destruct text. Qed.












End Insensitivity.

(** X19. The parser reads its text only through the trimmed text: white
    space and blank lines around the sheet change nothing, and the trim of
    the click handler before the call is one the parser would do itself. *)
Theorem parsePastedData_trim text :
  parsePastedData (Str.trim text) = parsePastedData text.
Proof.
  unfold parsePastedData, Parser.nonBlankLines.
  now rewrite !parsePastedData_blank_test, !trim_idempotent.
Qed.



(** ** The priority normalizer against its four steps *)

Section NormalizerFacts.

Import PrioritySpec.

Implicit Types (s t r text : string) (c d : ascii).

Lemma removed_isDigitOrHyphen c : Priority.isDigitOrHyphen c = removed c.
Proof. destruct c as [[] [] [] [] [] [] [] []]; reflexivity. Qed.

Lemma strip_Stripped text : Stripped text (Priority.stripDigitsAndHyphens text).
Proof.
  unfold Priority.stripDigitsAndHyphens.
  induction text as [|c r IH]; cbn [Str.filter]; [constructor|].
  rewrite removed_isDigitOrHyphen.
  destruct (removed c) eqn:E; cbn [negb]; now constructor.
Qed.

Lemma Stripped_unique text stripped :
  Stripped text stripped -> stripped = Priority.stripDigitsAndHyphens text.
Proof.
  unfold Priority.stripDigitsAndHyphens.
  induction 1 as [|c r t Hc _ IH|c r t Hc _ IH]; cbn [Str.filter];
    [reflexivity|..]; rewrite removed_isDigitOrHyphen, Hc; cbn [negb];
    now rewrite IH.
Qed.

Lemma blank_trimStart blank s :
  allChars Char.isWhiteSpace blank = true ->
  Str.trimStart (blank ++ s) = Str.trimStart s.
Proof.
  induction blank as [|c r IH]; [reflexivity|]. cbn [allChars String.append Str.trimStart].
  intros H. apply andb_prop in H as [-> H]. auto.
Qed.

Lemma blank_trim blank :
  allChars Char.isWhiteSpace blank = true -> Str.trim blank = "".
Proof.
  intros H. unfold Str.trim.
  rewrite <- (append_empty_r blank), blank_trimStart by assumption. reflexivity.
Qed.

Lemma trimStart_prefix s :
  exists before,
    s = before ++ Str.trimStart s /\ allChars Char.isWhiteSpace before = true.
Proof.
  induction s as [|c r (before & Hr & Hbefore)]; [now exists ""|].
  cbn [Str.trimStart]. destruct (Char.isWhiteSpace c) eqn:E; [|now exists ""].
  exists (String c before). cbn [String.append allChars].
  now rewrite <- Hr, E, Hbefore.
Qed.

Lemma trimEnd_suffix s :
  exists after,
    s = Str.trimEnd s ++ after /\ allChars Char.isWhiteSpace after = true.
Proof.
  induction s as [|c r (after & Hr & Hafter)]; [now exists ""|].
  cbn [Str.trimEnd]. cbv zeta.
  destruct (Str.trimEnd r) as [|c' r'] eqn:E; cbn [Str.isEmpty andb].
  - cbn [String.append] in Hr. subst after.
    destruct (Char.isWhiteSpace c) eqn:Ec.
    + exists (String c r). cbn [String.append allChars]. now rewrite Ec.
    + now exists r.
  - exists after. split; [|assumption].
    cbn [String.append] in *. now rewrite <- Hr.
Qed.

Lemma trim_TrimOf text : TrimOf text (Str.trim text).
Proof.
  destruct (trimStart_prefix text) as (before & Hbefore & Hblank).
  destruct (trimEnd_suffix (Str.trimStart text)) as (after & Hafter & Hblank').
  exists before, after. fold (Str.trim text) in Hafter.
  repeat split; try assumption; [|apply trim_text|apply trim_text].
  now rewrite <- Hafter.
Qed.

Lemma TrimOf_unique text trimmed :
  TrimOf text trimmed -> trimmed = Str.trim text.
Proof.
  intros (before & after & -> & Hbefore & Hafter & Htext).
  unfold Str.trim. rewrite blank_trimStart by assumption.
  fold (Str.trim (trimmed ++ after)).
  rewrite trim_append_blank by now apply blank_trim.
  symmetry. now apply trim_fixed.
Qed.

Lemma startsWithCI_Moderate s :
  Str.startsWithCI "moderate" s = true <->
  exists matched rest, s = matched ++ rest /\ Moderate matched.
Proof. apply startsWithCI_KeywordFollows. Qed.

Lemma Moderate_length matched : Moderate matched -> String.length matched = 8.
Proof.
  unfold Moderate. intros H. rewrite <- (map_length Char.toUpper).
  fold (Str.toUpperCase matched). now rewrite H.
Qed.

Lemma replaceModerateFrom_skip matched rest :
  Priority.replaceModerateFrom (matched ++ rest) (String.length matched)
  = Priority.replaceModerateFrom rest 0.
Proof. induction matched as [|c r IH]; [reflexivity | exact IH]. Qed.

Lemma replaceModerate_here matched rest :
  Moderate matched ->
  Priority.replaceModerate (matched ++ rest)
  = "Medium" ++ Priority.replaceModerate rest.
Proof.
  intros H. pose proof (Moderate_length _ H) as Hlen.
  assert (Hstart : Str.startsWithCI "moderate" (matched ++ rest) = true)
    by (apply startsWithCI_Moderate; now exists matched, rest).
  destruct matched as [|c m]; [discriminate|].
  unfold Priority.replaceModerate.
  cbn [String.append Priority.replaceModerateFrom] in *. rewrite Hstart.
  injection Hlen as Hlen. now rewrite <- Hlen, replaceModerateFrom_skip.
Qed.

Lemma replaceModerate_next c text :
  Str.startsWithCI "moderate" (String c text) = false ->
  Priority.replaceModerate (String c text)
  = String c (Priority.replaceModerate text).
Proof.
  intros H. unfold Priority.replaceModerate.
  cbn [Priority.replaceModerateFrom]. now rewrite H.
Qed.

Lemma replaceModerate_Replaced text :
  Replaced text (Priority.replaceModerate text).
Proof.
  assert (H : forall n s, String.length s < n ->
                          Replaced s (Priority.replaceModerate s)).
  { induction n as [|n IH]; intros s Hn; [lia|].
    destruct s as [|c r]; [constructor|].
    destruct (Str.startsWithCI "moderate" (String c r)) eqn:E.
    - apply startsWithCI_Moderate in E as (matched & rest & Heq & Hm).
      rewrite Heq in Hn |- *.
      rewrite (replaceModerate_here _ _ Hm). apply replaced_here; [assumption|].
      apply IH. rewrite length_append, (Moderate_length _ Hm) in Hn. lia.
    - rewrite (replaceModerate_next _ _ E). apply replaced_next.
      + intros matched rest Heq Hm.
        assert (Str.startsWithCI "moderate" (String c r) = true)
          by (apply startsWithCI_Moderate; now exists matched, rest).
        congruence.
      + apply IH. simpl in Hn. lia. }
  apply (H (S (String.length text))). lia.
Qed.

Lemma Replaced_unique text replaced :
  Replaced text replaced -> replaced = Priority.replaceModerate text.
Proof.
  induction 1 as [|matched rest t Hm _ IH|c r t Hno _ IH]; [reflexivity| |].
  - now rewrite (replaceModerate_here _ _ Hm), IH.
  - rewrite replaceModerate_next, IH; [reflexivity|].
    destruct (Str.startsWithCI "moderate" (String c r)) eqn:E; [|reflexivity].
    apply startsWithCI_Moderate in E as (matched & rest & Heq & Hm).
    now elim (Hno matched rest Heq).
Qed.

Lemma get_map f s i : String.get i (Str.map f s) = option_map f (String.get i s).
Proof.
  revert i. induction s as [|c r IH]; intros [|i]; simpl; trivial.
Qed.

(** A text is fixed by its length and its characters. *)
Lemma pointwise_map f s t :
  String.length t = String.length s ->
  (forall i c, String.get i s = Some c -> String.get i t = Some (f c)) ->
  t = Str.map f s.
Proof.
  revert t. induction s as [|c r IH]; intros [|d t]; simpl; try discriminate;
    [reflexivity|].
  intros [= Hlen] Hget. f_equal.
  - specialize (Hget 0 c eq_refl). now injection Hget.
  - apply IH; [assumption|]. intros i a Ha. exact (Hget (S i) a Ha).
Qed.

Lemma capitalize_Capitalized text : Capitalized text (Priority.capitalize text).
Proof.
  destruct text as [|c r]; [split; [reflexivity | intros i a; discriminate]|].
  unfold Priority.capitalize, Str.toLowerCase. split.
  - simpl. now rewrite map_length.
  - intros [|i] a; simpl; [now intros [= <-]|].
    intros H. now rewrite get_map, H.
Qed.

Lemma Capitalized_unique text result :
  Capitalized text result -> result = Priority.capitalize text.
Proof.
  intros [Hlen Hget]. destruct text as [|c r], result as [|d t]; try discriminate;
    [reflexivity|].
  unfold Priority.capitalize, Str.toLowerCase. f_equal.
  - specialize (Hget 0 c eq_refl). now injection Hget.
  - apply pointwise_map; [now injection Hlen|].
    intros i a Ha. exact (Hget (S i) a Ha).
Qed.

End NormalizerFacts.

(** C6. For every input, the result of [processPriority] is the one text
    obtained by removing every digit and hyphen, removing the white space
    around what is left, replacing every occurrence of moderate, in any
    case and from left to right, by Medium, and then putting the first
    character in upper case and every other character in lower case.
    "2 - High" gives "High", "3 - Moderate" gives "Medium", the empty string
    gives the empty string, and "1 - cRITICAL" gives "Critical". *)
Theorem processPriority_normalizes :
  (forall priority result,
     PrioritySpec.Normalizes priority result <-> processPriority priority = result)
  /\ processPriority "2 - High" = "High"
  /\ processPriority "3 - Moderate" = "Medium"
  /\ processPriority "" = ""
  /\ processPriority "1 - cRITICAL" = "Critical"
  /\ processPriority "4 - lOW / MODERATE-risk" = "Low / mediumrisk".
Proof.
  split; [|repeat split; reflexivity].
  intros priority result. rewrite processPriority_unfold. split.
  - intros (stripped & trimmed & replaced & H1 & H2 & H3 & H4).
    apply Stripped_unique in H1 as ->. apply TrimOf_unique in H2 as ->.
    apply Replaced_unique in H3 as ->. apply Capitalized_unique in H4 as ->.
    reflexivity.
  - intros <-. eexists _, _, _.
    split; [apply strip_Stripped|]. split; [apply trim_TrimOf|].
    split; [apply replaceModerate_Replaced | apply capitalize_Capitalized].
Qed.
